(** * intake_fivethirtyeight: catalog construction and flattening walk

    A shallow embedding of [intake_fivethirtyeight.py]: the project indexer
    [get_projects], the per-project sub-catalog [Five38SubCatalog] and the
    depth-bounded [walk] of [Five38Catalog], with the properties of the
    specification stated over them.

    Conventions of the embedding:
    - a Python [str] is a [string]; [lower] acts on the ASCII letters, which
      is all that the suffix tests on "readme.md" and ".csv" can observe;
    - a Python [int] is a [Z];
    - a [dict] used as a map is a [gmap]; the entries of a catalog that
      [walk] iterates over keep their insertion order and are a list of
      pairs;
    - a raised exception is a value of [exn]; code that may raise and that
      talks to the network runs in the monad [M] over a [World]. *)

From Stdlib Require Import String Ascii List ZArith Bool Lia.
From stdpp Require Import gmap strings list fin_maps.
Open Scope Z_scope.

(** ** Python string methods *)

Module PyStr.

(** [s.startswith(p)] *)
Fixpoint startswith (s p : string) {struct p} : bool :=
  match p with
  | EmptyString => true
  | String a p' =>
      match s with
      | EmptyString => false
      | String b s' => if Ascii.eqb a b then startswith s' p' else false
      end
  end.

(** [s.find(sub)]: the lowest index at which [sub] occurs, or [-1]. *)
Fixpoint find (s sub : string) {struct s} : Z :=
  if startswith s sub then 0
  else match s with
       | EmptyString => -1
       | String _ s' => let r := find s' sub in if r <? 0 then -1 else r + 1
       end.

(** The characters of [s] from index [n] on: [s[n:]]. *)
Fixpoint drop (n : nat) (s : string) : string :=
  match n, s with
  | O, _ => s
  | S n', EmptyString => EmptyString
  | S n', String _ s' => drop n' s'
  end.

(** [s.endswith(suf)] *)
Definition endswith (s suf : string) : bool :=
  (String.length suf <=? String.length s)%nat
  && String.eqb (drop (String.length s - String.length suf) s) suf.

Definition lower_ascii (c : ascii) : ascii :=
  let n := N_of_ascii c in
  if ((65 <=? n) && (n <=? 90))%N then ascii_of_N (n + 32) else c.

(** [s.lower()] *)
Fixpoint lower (s : string) : string :=
  match s with
  | EmptyString => EmptyString
  | String c s' => String (lower_ascii c) (lower s')
  end.

(** [s.replace(old, new)] for a non-empty [old]: the occurrences of [old]
    are taken from left to right and do not overlap; [skip] counts the
    characters of the occurrence being replaced that are still to pass. *)
Fixpoint replace_from (skip : nat) (s old new : string) {struct s} : string :=
  match s with
  | EmptyString => EmptyString
  | String c s' =>
      match skip with
      | S k => replace_from k s' old new
      | O =>
          if startswith s old
          then new +:+ replace_from (String.length old - 1) s' old new
          else String c (replace_from O s' old new)
      end
  end.

(** With an empty [old], Python puts [new] around every character. *)
Fixpoint intersperse (s new : string) : string :=
  match s with
  | EmptyString => new
  | String c s' => new +:+ String c (intersperse s' new)
  end.

(** [s.replace(old, new)] *)
Definition replace (s old new : string) : string :=
  match old with
  | EmptyString => intersperse s new
  | String _ _ => replace_from O s old new
  end.

(** [sep.join(parts)] *)
Definition join (sep : string) (parts : list string) : string :=
  String.concat sep parts.

End PyStr.

(** ** Exceptions, the upstream and the monad of effectful code *)

(** A raised Python exception: the name of its class and its message. *)
Record exn := Exception { exc_class : string; exc_msg : string }.

Definition IndexError : exn := Exception "IndexError" "list index out of range".
Definition KeyError (key : string) : exn := Exception "KeyError" key.
Definition JSONDecodeError : exn :=
  Exception "JSONDecodeError" "Expecting value".

(** One node of the recursive tree listing: [{"path": ..., "type": ...}]. *)
Module Node.
Record t := mk { path : string; type : string }.
End Node.

(** The tree snapshot: [{"sha": ..., "tree": [...]}]. *)
Record GitTree := { sha : string; tree : list Node.t }.

(** The JSON payloads of the three API resources that the code reads,
    the empty object [{}] and any other value. *)
Inductive Json :=
| JRepo (default_branch : string)
| JBranch (commit_sha : string)
| JTree (gittree : GitTree)
| JOther
| JEmpty.


(** What [requests.get] hands back: [raise_for_status] raises [status_error]
    when there is one, [.text] is the body and [.json()] decodes it. *)
Record Response := {
  status_error : option exn;
  text : string;
  json : exn + Json
}.

Module LocalCatalogEntry.
(** The keyword arguments [_load] passes to [LocalCatalogEntry];
    [catalog] is the reference of the owning sub-catalog and
    [urlpath] the one key of [args]. *)
Record t := mk {
  name : string;
  description : string;
  driver : string;
  catalog : nat;
  urlpath : string
}.
End LocalCatalogEntry.

(** The state of a [Five38SubCatalog] object. The attribute [_tree] is the
    empty dict [{}], written [None], or a decoded JSON value: the tree
    snapshot [g], written [Some (JTree g)], or an answer that is no
    snapshot. *)
Record SubCatalogObj := {
  _tree : option Json;
  sc_name : string;
  sc_description : option string;
  sc_ttl : option Z;
  _entries : gmap string LocalCatalogEntry.t
}.

(** The world the code runs in: the upstream, taken as a function of the
    url, the urls requested so far, and the store of sub-catalog objects,
    a reference being an index into it. *)
Record World := {
  upstream : string -> exn + Response;
  requests : list string;
  heap : list SubCatalogObj
}.

Definition M (A : Type) : Type := World -> (exn + A) * World.

Definition ret {A} (a : A) : M A := fun w => (inr a, w).
Definition raise {A} (e : exn) : M A := fun w => (inl e, w).
Definition bind {A B} (m : M A) (k : A -> M B) : M B :=
  fun w => match m w with
           | (inl e, w') => (inl e, w')
           | (inr a, w') => k a w'
           end.

Notation "x <- m ;; k" := (bind m (fun x => k))
  (at level 100, m at next level, right associativity).
Notation "m ;;; k" := (bind m (fun _ => k))
  (at level 100, right associativity).

Definition lift {A} (r : exn + A) : M A :=
  match r with inl e => raise e | inr a => ret a end.

(** [requests.get(url)] *)
Definition requests_get (url : string) : M Response :=
  fun w => (upstream w url,
            {| upstream := upstream w;
               requests := requests w ++ [url];
               heap := heap w |}).

(** [response.raise_for_status()] *)
Definition raise_for_status (r : Response) : M unit :=
  match status_error r with Some e => raise e | None => ret tt end.

(** [l[0]] *)
Definition item0 {A} (l : list A) : M A :=
  match l with [] => raise IndexError | x :: _ => ret x end.

Definition RAW_URL : string := "https://raw.githubusercontent.com".
Definition GH_URL : string := "https://www.github.com".
Definition REPO : string := "fivethirtyeight/data".
Definition GH_API : string := "https://api.github.com".

(** The three sequential calls that resolve the default branch to its
    recursive tree; the source repeats them in [get_projects] and in both
    [_load] methods. *)
Definition fetch_tree : M GitTree :=
  response <- requests_get (GH_API +:+ "/repos/" +:+ REPO) ;;
  raise_for_status response ;;;
  repo <- lift (json response) ;;
  default_branch <- match repo with
                    | JRepo b => ret b
                    | _ => raise (KeyError "default_branch")
                    end ;;
  response <- requests_get
    (GH_API +:+ "/repos/" +:+ REPO +:+ "/branches/" +:+ default_branch) ;;
  raise_for_status response ;;;
  branch <- lift (json response) ;;
  commit_sha <- match branch with
                | JBranch s => ret s
                | _ => raise (KeyError "commit")
                end ;;
  response <- requests_get
    (GH_API +:+ "/repos/" +:+ REPO +:+ "/git/trees/" +:+ commit_sha
       +:+ "?recursive=1") ;;
  raise_for_status response ;;;
  gittree <- lift (json response) ;;
  match gittree with
  | JTree t => ret t
  | _ => raise (KeyError "sha")
  end.

(** Lines 172-188: the same three calls where the decoded answer of the
    third is kept before anything is read from it. *)
Definition fetch_json : M Json :=
  response <- requests_get (GH_API +:+ "/repos/" +:+ REPO) ;;
  raise_for_status response ;;;
  repo <- lift (json response) ;;
  default_branch <- match repo with
                    | JRepo b => ret b
                    | _ => raise (KeyError "default_branch")
                    end ;;
  response <- requests_get
    (GH_API +:+ "/repos/" +:+ REPO +:+ "/branches/" +:+ default_branch) ;;
  raise_for_status response ;;;
  branch <- lift (json response) ;;
  commit_sha <- match branch with
                | JBranch s => ret s
                | _ => raise (KeyError "commit")
                end ;;
  response <- requests_get
    (GH_API +:+ "/repos/" +:+ REPO +:+ "/git/trees/" +:+ commit_sha
       +:+ "?recursive=1") ;;
  raise_for_status response ;;;
  lift (json response).

(** ** The project indexer *)

(** One record of the returned frame. *)
Record ProjectRecord := {
  Name : string;
  Description : string;
  URL : string
}.

(** A [pandas.DataFrame] built from a list of records, row by row. *)
Definition DataFrame := list ProjectRecord.

(** Line 38: the top-level directories. *)
Definition top_level_dirs (gittree : GitTree) : list Node.t :=
  List.filter
    (fun x => String.eqb (Node.type x) "tree" && (PyStr.find (Node.path x) "/" <? 0))
    (tree gittree).

(** Lines 40-41: the optional keyword filter. *)
Definition project_list (search_string : option string) (gittree : GitTree)
  : list Node.t :=
  match search_string with
  | Some k =>
      List.filter (fun x => 0 <=? PyStr.find (Node.path x) k)
                  (top_level_dirs gittree)
  | None => top_level_dirs gittree
  end.

(** Line 49: the candidates for the documentation file of [dataset]. *)
Definition readme_candidates (gittree : GitTree) (dataset : Node.t)
  : list Node.t :=
  List.filter
    (fun x => String.eqb (Node.type x) "blob"
              && PyStr.startswith (Node.path x) (Node.path dataset)
              && PyStr.endswith (PyStr.lower (Node.path x)) "readme.md")
    (tree gittree).

(** Lines 44-62: the loop over the project list, [records] being the list
    appended to. *)
Fixpoint collect_records (gittree : GitTree) (datasets : list Node.t)
    (records : list ProjectRecord) : M (list ProjectRecord) :=
  match datasets with
  | [] => ret records
  | dataset :: rest =>
      let url := GH_URL +:+ "/" +:+ REPO +:+ "/tree/" +:+ sha gittree
                   +:+ "/" +:+ Node.path dataset in
      let readme := readme_candidates gittree dataset in
      readme0 <- item0 readme ;;
      let readme_url := RAW_URL +:+ "/" +:+ REPO +:+ "/" +:+ sha gittree
                          +:+ "/" +:+ Node.path readme0 in
      response <- requests_get readme_url ;;
      raise_for_status response ;;;
      let description := text response in
      collect_records gittree rest
        (records ++ [{| Name := Node.path dataset;
                        Description := description;
                        URL := url |}])
  end.

Definition get_projects (search_string : option string)
    (gittree : option GitTree) (render : bool) : M DataFrame :=
  gittree <- match gittree with
             | None => fetch_tree
             | Some t => ret t
             end ;;
  collect_records gittree (project_list search_string gittree) [].

(** ** The project sub-catalog *)

(** Attribute access on the object behind a reference. A reference into the
    store is always that of a constructed object; one outside it is not a
    Python value, and using it raises. *)
Definition deref (self : nat) : M SubCatalogObj :=
  fun w => match heap w !! self with
           | Some o => (inr o, w)
           | None => (inl (Exception "ReferenceError" "no such object"), w)
           end.

Definition store (self : nat) (o : SubCatalogObj) : M unit :=
  fun w => (inr tt,
            {| upstream := upstream w;
               requests := requests w;
               heap := <[self := o]> (heap w) |}).

(** Allocation of a new object: its reference is the next free index. *)
Definition alloc (o : SubCatalogObj) : M nat :=
  fun w => (inr (length (heap w)),
            {| upstream := upstream w;
               requests := requests w;
               heap := heap w ++ [o] |}).

Module Five38SubCatalog.

(** The class attribute [name] of line 158. The name of an instance is
    what its constructor call leaves it with, see [new] and [search]. *)
Definition name : string := "fivethirtyeight_sources".

(** [Five38SubCatalog(tree=..., name=..., description=..., ttl=...)];
    the parameter [tree] defaults to [{}], and [__init__] keeps it in
    [_tree]. The keyword arguments go to the constructor of the base class
    [Catalog], which belongs to the host framework and not to the source.
    Modelled from the spec: the base class keeps the description and the
    time-to-live and makes an empty shell, whose entries are loaded later.
    [name] is the name of the instance once the base class has run: the
    keyword argument [name] when the call has one. *)
Definition new (tree : option Json) (name : string)
    (kw_description : option string) (kw_ttl : option Z) : M nat :=
  alloc {| _tree := tree;
           sc_name := name;
           sc_description := kw_description;
           sc_ttl := kw_ttl;
           _entries := ∅ |}.

(** Lines 165-166: the constructor is called without arguments. What the
    base class leaves as the name of an instance built without one is not
    in the source: it is the parameter [unnamed], the text this name has
    in the f-strings of [_load]. *)
Definition search (unnamed : string) (self : nat) (text : option string)
  : M nat :=
  new None unnamed None None.

(** [self._entries = v] *)
Definition set_entries (self : nat) (v : gmap string LocalCatalogEntry.t)
  : M unit :=
  o <- deref self ;;
  store self {| _tree := _tree o; sc_name := sc_name o;
                sc_description := sc_description o; sc_ttl := sc_ttl o;
                _entries := v |}.

(** The attribute that holds the decoded value [j]: the empty object is
    the empty dict. *)
Definition json_attr (j : Json) : option Json :=
  match j with
  | JEmpty => None
  | _ => Some j
  end.

(** [self._tree = j] *)
Definition set_tree (self : nat) (j : Json) : M unit :=
  o <- deref self ;;
  store self {| _tree := json_attr j; sc_name := sc_name o;
                sc_description := sc_description o; sc_ttl := sc_ttl o;
                _entries := _entries o |}.

(** Line 194: the data files of the project. *)
Definition output_list (self_name : string) (gittree : GitTree)
  : list Node.t :=
  List.filter
    (fun x => String.eqb (Node.type x) "blob"
              && PyStr.startswith (Node.path x) (self_name +:+ "/")
              && PyStr.endswith (PyStr.lower (Node.path x)) ".csv")
    (tree gittree).

(** Line 197. *)
Definition dataset_name (self_name : string) (a_csv : Node.t) : string :=
  PyStr.replace (PyStr.replace (Node.path a_csv) (self_name +:+ "/") "")
                "-" "_".

(** Lines 198-206: the entry registered for one data file. *)
Definition entry_of (self : nat) (self_name sha : string) (a_csv : Node.t)
  : LocalCatalogEntry.t :=
  LocalCatalogEntry.mk
    (dataset_name self_name a_csv)
    ("data file for " +:+ self_name)
    "csv"
    self
    (RAW_URL +:+ "/" +:+ REPO +:+ "/" +:+ sha +:+ "/" +:+ Node.path a_csv).

(** Lines 196-206: the loop over the data files. *)
Fixpoint register (self : nat) (sha : string) (csvs : list Node.t) : M unit :=
  match csvs with
  | [] => ret tt
  | a_csv :: rest =>
      o <- deref self ;;
      set_entries self
        (<[dataset_name (sc_name o) a_csv
             := entry_of self (sc_name o) sha a_csv]> (_entries o)) ;;;
      register self sha rest
  end.

(** Lines 168-206. The answer of the third call is kept in [_tree] as it
    is decoded (line 188); its ["sha"] is read after that (line 190). *)
Definition _load (self : nat) : M unit :=
  set_entries self ∅ ;;;
  o <- deref self ;;
  match _tree o with
  | None => j <- fetch_json ;; set_tree self j
  | Some _ => ret tt
  end ;;;
  o <- deref self ;;
  gittree <- match _tree o with
             | Some (JTree t) => ret t
             | _ => raise (KeyError "sha")
             end ;;
  register self (sha gittree) (output_list (sc_name o) gittree).

End Five38SubCatalog.

(** ** The flattening walk *)

Module Five38Catalog.

(** An entry of a catalog as [walk] sees it: its [container] attribute
    and what calling it with the default parameters does, which is to
    raise or to return (the reference of) a catalog. *)
Record Item := { container : string; call : exn + nat }.

(** A catalog as [walk] sees it: what [reload_on_change] does before the
    body runs (it raises, or not) and the items of [_entries] after it,
    in the order of the dict. *)
Record Catalog := {
  reload : option exn;
  entries : list (string * Item)
}.

(** The catalog objects by reference; any graph, cyclic ones too. *)
Definition Catalogs := nat -> Catalog.

(** What the walk changes: the dict [out], which every level of the
    recursion shares, and what [print] has written. *)
Record WalkState := {
  out : gmap string Item;
  stdout : list exn
}.

Definition print (e : exn) (st : WalkState) : WalkState :=
  {| out := out st; stdout := stdout st ++ [e] |}.

(** [out[n] = item] *)
Definition setitem (n : string) (item : Item) (st : WalkState) : WalkState :=
  {| out := <[n := item]> (out st); stdout := stdout st |}.

(** The outcome of a call of [walk]: the state it leaves, and the
    exception it raised, if any. Without one, the call returns [out]. *)
Definition Outcome : Type := WalkState * option exn.

Section Body.
(** The method bound to [walk] in the recursive call, at a given depth.
    A nested catalog is walked by the method of the source: the walk a
    sub-catalog inherits from the host framework is the one the source
    copies. *)
Variable rec_walk : Z -> nat -> WalkState -> list string -> Outcome.
Variable cats : Catalogs.

(** Lines 146-154: one turn of the loop. *)
Definition visit (depth : Z) (prefix : list string) (st : WalkState)
    (entry : string * Item) : WalkState :=
  let name := fst entry in
  let item := snd entry in
  let st1 :=
    if String.eqb (container item) "catalog" && (1 <? depth) then
      match call item with
      | inl e => print e st
      | inr sub =>
          match rec_walk (depth - 1) sub st (prefix ++ [name]) with
          | (st', Some e) => print e st'
          | (st', None) => st'
          end
      end
    else st in
  setitem (PyStr.join "." (prefix ++ [name])) item st1.

(** Lines 126-155, with [sofar] and [prefix] given. *)
Definition walk_body (depth : Z) (self : nat) (st : WalkState)
    (prefix : list string) : Outcome :=
  match reload (cats self) with
  | Some e => (st, Some e)
  | None => (fold_left (visit depth prefix) (entries (cats self)) st, None)
  end.
End Body.

(** The recursion goes down in [depth] as long as it is above 1, so it is
    structural in [Z.to_nat depth]; [walk_from_unfold] below states that
    [walk_from] is the method calling itself. *)
Fixpoint walk_rec (n : nat) (cats : Catalogs) (depth : Z) (self : nat)
    (st : WalkState) (prefix : list string) : Outcome :=
  walk_body
    (match n with
     | S n' => walk_rec n' cats
     | O => fun _ _ st _ => (st, None)
     end)
    cats depth self st prefix.

Definition walk_from (cats : Catalogs) (depth : Z) (self : nat)
    (st : WalkState) (prefix : list string) : Outcome :=
  walk_rec (Z.to_nat depth) cats depth self st prefix.

(** [self.walk(sofar, prefix, depth)], [None] being the default of
    [sofar] and of [prefix]; [printed] is what stdout holds before. *)
Definition walk (cats : Catalogs) (self : nat)
    (sofar : option (gmap string Item)) (prefix : option (list string))
    (depth : Z) (printed : list exn) : Outcome :=
  walk_from cats depth self
    {| out := default ∅ sofar; stdout := printed |}
    (default [] prefix).

(** The default of the parameter [depth]. *)
Definition default_depth : Z := 3.

End Five38Catalog.

(** ** Notions the properties are stated with *)

(** [sub] occurs in [s]: what [find] decides. *)
Definition occurs_in (sub s : string) : Prop :=
  exists pre post, s = pre +:+ sub +:+ post.

(** [s] ends with [suf]: what [endswith] decides. *)
Definition ends_with (s suf : string) : Prop :=
  exists pre, s = pre +:+ suf.

(** The url the documentation of a project is read from, given the first
    candidate. *)
Definition readme_url (gittree : GitTree) (readme0 : Node.t) : string :=
  RAW_URL +:+ "/" +:+ REPO +:+ "/" +:+ sha gittree +:+ "/" +:+ Node.path readme0.



(** The record [r] is the one the indexer makes for the directory [d]:
    named after it, linked to it, and described by the text fetched for
    the first documentation candidate. *)
Definition documents (up : string -> exn + Response) (gittree : GitTree)
    (d : Node.t) (r : ProjectRecord) : Prop :=
  Name r = Node.path d
  /\ URL r = GH_URL +:+ "/" +:+ REPO +:+ "/tree/" +:+ sha gittree
               +:+ "/" +:+ Node.path d
  /\ exists readme0 others response,
       readme_candidates gittree d = readme0 :: others
       /\ up (readme_url gittree readme0) = inr response
       /\ status_error response = None
       /\ Description r = text response.


(** The dict left by the assignments [m[key x] = val x] for [x] along
    [l], starting from [m]. *)
Definition put_all {A V} (key : A -> string) (val : A -> V) (l : list A)
    (m : gmap string V) : gmap string V :=
  fold_left (fun m x => <[key x := val x]> m) l m.

(** The entries [_load] registers for the data files [csvs]. *)
Definition registered (self : nat) (self_name sha : string)
    (csvs : list Node.t) (m : gmap string LocalCatalogEntry.t)
  : gmap string LocalCatalogEntry.t :=
  put_all (Five38SubCatalog.dataset_name self_name)
          (Five38SubCatalog.entry_of self self_name sha) csvs m.

Definition with_entries (o : SubCatalogObj)
    (v : gmap string LocalCatalogEntry.t) : SubCatalogObj :=
  {| _tree := _tree o; sc_name := sc_name o;
     sc_description := sc_description o; sc_ttl := sc_ttl o;
     _entries := v |}.

Definition with_heap (w : World) (h : list SubCatalogObj) : World :=
  {| upstream := upstream w; requests := requests w; heap := h |}.

(** The object a constructor call without arguments makes, [unnamed]
    being the name the base class leaves it with. *)
Definition unscoped (unnamed : string) : SubCatalogObj :=
  {| _tree := None; sc_name := unnamed;
     sc_description := None; sc_ttl := None; _entries := ∅ |}.

(** The entry [item] is reached from the entries [es] along the names
    [path]: each name but the last is that of an entry that is a catalog
    and opens, with the default parameters, to a catalog that reloads. *)
Inductive reaches (cats : Five38Catalog.Catalogs)
  : list (string * Five38Catalog.Item) -> list string
    -> Five38Catalog.Item -> Prop :=
| reach_entry es name item :
    In (name, item) es -> reaches cats es [name] item
| reach_nested es name item0 sub path item :
    In (name, item0) es ->
    Five38Catalog.container item0 = "catalog" ->
    Five38Catalog.call item0 = inr sub ->
    Five38Catalog.reload (cats sub) = None ->
    reaches cats (Five38Catalog.entries (cats sub)) path item ->
    reaches cats es (name :: path) item.

(** What a run of the loop over the entries [es] may have done to [out]
    between the states [st] and [st']: a key either holds what it held, or
    it is the dotted name, under [prefix], of an entry reached from [es]
    along at most [bound] names (one, if [bound] is below 1), and holds
    that entry. *)
Definition wrote (cats : Five38Catalog.Catalogs)
    (es : list (string * Five38Catalog.Item)) (prefix : list string)
    (bound : Z) (st st' : Five38Catalog.WalkState) : Prop :=
  forall k,
    Five38Catalog.out st' !! k = Five38Catalog.out st !! k
    \/ exists path item,
         k = PyStr.join "." (prefix ++ path)
         /\ 1 <= Z.of_nat (length path) <= Z.max 1 bound
         /\ reaches cats es path item
         /\ Five38Catalog.out st' !! k = Some item.

(** What a call of [walk] does, by the outcome of the reload. *)
Definition walk_spec (cats : Five38Catalog.Catalogs) (depth : Z) (self : nat)
    (st : Five38Catalog.WalkState) (prefix : list string)
    (res : Five38Catalog.Outcome) : Prop :=
  match Five38Catalog.reload (cats self) with
  | Some e => res = (st, Some e)
  | None => snd res = None
            /\ wrote cats (Five38Catalog.entries (cats self)) prefix depth
                 st (fst res)
  end.

(** The text put in front of the last name of a dotted name. *)
Fixpoint dotted (prefix : list string) : string :=
  match prefix with
  | [] => ""
  | name :: rest => name +:+ "." +:+ dotted rest
  end.

(** ** Snapshots and upstreams to run the code on *)

Definition blob (path : string) : Node.t := Node.mk path "blob".
Definition dir (path : string) : Node.t := Node.mk path "tree".

Definition HTTPError (url : string) : exn := Exception "HTTPError" url.

(** An upstream that serves the given pages as text and answers 404 for
    every other url. *)
Definition serve (pages : list (string * string)) (url : string)
  : exn + Response :=
  match List.find (fun page => String.eqb (fst page) url) pages with
  | Some page => inr {| status_error := None; text := snd page;
                        json := inl JSONDecodeError |}
  | None => inr {| status_error := Some (HTTPError url); text := "";
                   json := inl JSONDecodeError |}
  end.

Definition world_of (up : string -> exn + Response) : World :=
  {| upstream := up; requests := []; heap := [] |}.

(** The scenario of the specification. *)
Definition elections : GitTree :=
  {| sha := "abc123";
     tree := [dir "elections"; blob "elections/README.md";
              blob "elections/results.csv"] |}.

Definition elections_upstream : string -> exn + Response :=
  serve [("https://raw.githubusercontent.com/fivethirtyeight/data/abc123/elections/README.md",
          "# Elections")].


(** Three projects, the second without any documentation file. *)
Definition second_undocumented : GitTree :=
  {| sha := "abc123";
     tree := [dir "a"; blob "a/README.md"; dir "b";
              dir "c"; blob "c/README.md"] |}.

(** Two projects, the name of one starting with the name of the other, in
    the order of a git tree listing ("-" sorts before "/"). *)
Definition nba : GitTree :=
  {| sha := "abc123";
     tree := [dir "nba-elo"; blob "nba-elo/README.md";
              blob "nba-elo/nbaallelo.csv";
              dir "nba"; blob "nba/README.md"; blob "nba/games.csv"] |}.

Definition nba_upstream : string -> exn + Response :=
  serve [("https://raw.githubusercontent.com/fivethirtyeight/data/abc123/nba-elo/README.md",
          "# NBA Elo");
         ("https://raw.githubusercontent.com/fivethirtyeight/data/abc123/nba/README.md",
          "# NBA")].

(** A project with a single data file. *)
Definition one_file : GitTree :=
  {| sha := "abc123";
     tree := [dir "abc"; blob "abc/README.md"; blob "abc/data-set.csv"] |}.

(** Two data files whose names differ in "-" against "_" only. *)
Definition colliding : GitTree :=
  {| sha := "abc123";
     tree := [dir "abc"; blob "abc/a-b.csv"; blob "abc/a_b.csv"] |}.

(** The sub-catalog object the root catalog makes for a project. *)
Definition sub_catalog (g : GitTree) (project : string) : SubCatalogObj :=
  {| _tree := Some (JTree g); sc_name := project;
     sc_description := Some "about the project";
     sc_ttl := Some 99999999999; _entries := ∅ |}.

(** A world without network whose store holds one sub-catalog, under the
    reference 0. *)
Definition offline (o : SubCatalogObj) : World :=
  {| upstream := fun url => inl (Exception "ConnectionError" url);
     requests := []; heap := [o] |}.

(** An entry that is not a catalog; [walk] never calls it. *)
Definition leaf : Five38Catalog.Item :=
  {| Five38Catalog.container := "dataframe";
     Five38Catalog.call := inl (Exception "TypeError" "not a catalog") |}.

(** An entry that is a catalog and opens to the catalog [sub]. *)
Definition nested (sub : nat) : Five38Catalog.Item :=
  {| Five38Catalog.container := "catalog"; Five38Catalog.call := inr sub |}.

(** An entry that is a catalog and raises when it is opened. *)
Definition broken (e : exn) : Five38Catalog.Item :=
  {| Five38Catalog.container := "catalog"; Five38Catalog.call := inl e |}.

Definition catalog_of (es : list (string * Five38Catalog.Item))
  : Five38Catalog.Catalog :=
  {| Five38Catalog.reload := None; Five38Catalog.entries := es |}.

(** Catalogs nested five levels deep: "a" holds "b", which holds "c", ...,
    and "e" is a leaf. *)
Definition five_levels : Five38Catalog.Catalogs :=
  fun c =>
    match c with
    | 0%nat => catalog_of [("a", nested 1)]
    | 1%nat => catalog_of [("b", nested 2)]
    | 2%nat => catalog_of [("c", nested 3)]
    | 3%nat => catalog_of [("d", nested 4)]
    | 4%nat => catalog_of [("e", leaf)]
    | _ => catalog_of []
    end.

(** A catalog that holds itself. *)
Definition cyclic : Five38Catalog.Catalogs :=
  fun _ => catalog_of [("again", nested 0); ("data", leaf)].

(** A catalog with a nested catalog that opens, one that raises when it
    is opened, one whose load raises once it is opened, and a leaf. *)
Definition flaky : Five38Catalog.Catalogs :=
  fun c =>
    match c with
    | 0%nat => catalog_of [("good", nested 1);
                           ("bad", broken (HTTPError "repos"));
                           ("stale", nested 2);
                           ("plain", leaf)]
    | 1%nat => catalog_of [("x", leaf)]
    | _ => {| Five38Catalog.reload := Some (HTTPError "trees");
              Five38Catalog.entries := [("y", leaf)] |}
    end.

(** A catalog with an entry "bad.x" that raises when it is opened, beside
    an entry "bad" that opens to a catalog with an entry "x". *)
Definition shadowed : Five38Catalog.Catalogs :=
  fun c =>
    match c with
    | 0%nat => catalog_of [("bad.x", broken (HTTPError "repos"));
                           ("bad", nested 1)]
    | 1%nat => catalog_of [("x", leaf)]
    | _ => catalog_of []
    end.

(** ** The root catalog *)

(** The methods of the class [Five38Catalog] other than [walk]. *)
Module Five38Root.

(** The state of a [Five38Catalog] object: the query [__init__] keeps and
    the dict [_entries], from the normalized name of a project to (the
    reference of) its sub-catalog. *)
Record t := mk { _search_string : option string; _entries : gmap string nat }.

(** The default of the parameter [query]. *)
Definition default_query : option string := Some "".

(** Lines 69-71: [Five38Catalog(query)]. Modelled from the spec: the
    constructor of the base class, which belongs to the host framework,
    makes an empty shell, whose entries are loaded later. *)
Definition new (query : option string) : t :=
  {| _search_string := query; _entries := ∅ |}.

(** Lines 73-74. *)
Definition search (self : t) (text : option string) : t := new text.

(** [self._entries = v] *)
Definition set_entries (self : t) (v : gmap string nat) : t :=
  {| _search_string := _search_string self; _entries := v |}.

(** What a method of the root catalog leaves: its outcome, the object and
    the world. *)
Definition Run : Type := (exn + unit) * t * World.

(** Lines 114-123: the loop over the records of the frame. *)
Fixpoint make_handles (tree : GitTree) (projects : list ProjectRecord)
    (self : t) (w : World) : Run :=
  match projects with
  | [] => (inr tt, self, w)
  | dataset :: rest =>
      let project_name := Name dataset in
      match Five38SubCatalog.new (Some (JTree tree)) project_name
              (Some (Description dataset)) (Some 99999999999) w with
      | (inl e, w') => (inl e, self, w')
      | (inr sub_catalog, w') =>
          make_handles tree rest
            (set_entries self
               (<[PyStr.replace project_name "-" "_" := sub_catalog]>
                  (_entries self)))
            w'
      end
  end.

(** Lines 89-123. *)
Definition _load (self : t) (w : World) : Run :=
  let self := set_entries self ∅ in
  match fetch_tree w with
  | (inl e, w1) => (inl e, self, w1)
  | (inr tree, w1) =>
      match get_projects (_search_string self) (Some tree) true w1 with
      | (inl e, w2) => (inl e, self, w2)
      | (inr projects, w2) => make_handles tree projects self w2
      end
  end.

End Five38Root.

(** ** Notions the further properties are stated with *)

Definition add_requests (w : World) (urls : list string) : World :=
  {| upstream := upstream w; requests := requests w ++ urls; heap := heap w |}.

(** The urls of the three calls that resolve the default branch. *)
Definition repo_url : string := GH_API +:+ "/repos/" +:+ REPO.
Definition branch_url (default_branch : string) : string :=
  GH_API +:+ "/repos/" +:+ REPO +:+ "/branches/" +:+ default_branch.
Definition tree_url (commit_sha : string) : string :=
  GH_API +:+ "/repos/" +:+ REPO +:+ "/git/trees/" +:+ commit_sha
    +:+ "?recursive=1".

(** What a GET of [url] yields once the status is checked and the body
    decoded. *)
Definition answer (up : string -> exn + Response) (url : string)
  : exn + Json :=
  match up url with
  | inl e => inl e
  | inr response =>
      match status_error response with
      | Some e => inl e
      | None => json response
      end
  end.

(** The outcome of the three calls and the urls they request, as a
    function of the upstream. *)
Definition fetch_plan (up : string -> exn + Response)
  : (exn + GitTree) * list string :=
  match answer up repo_url with
  | inl e => (inl e, [repo_url])
  | inr (JRepo b) =>
      match answer up (branch_url b) with
      | inl e => (inl e, [repo_url; branch_url b])
      | inr (JBranch s) =>
          match answer up (tree_url s) with
          | inl e => (inl e, [repo_url; branch_url b; tree_url s])
          | inr (JTree t) => (inr t, [repo_url; branch_url b; tree_url s])
          | inr _ => (inl (KeyError "sha"), [repo_url; branch_url b; tree_url s])
          end
      | inr _ => (inl (KeyError "commit"), [repo_url; branch_url b])
      end
  | inr _ => (inl (KeyError "default_branch"), [repo_url])
  end.

(** The record the indexer makes for the directory [d] from the text of
    its documentation. *)
Definition record_of (gittree : GitTree) (d : Node.t) (description : string)
  : ProjectRecord :=
  {| Name := Node.path d;
     Description := description;
     URL := GH_URL +:+ "/" +:+ REPO +:+ "/tree/" +:+ sha gittree
              +:+ "/" +:+ Node.path d |}.

(** The outcome of the loop of the indexer and the urls it requests, as a
    function of the upstream. *)
Fixpoint collect_plan (up : string -> exn + Response) (gittree : GitTree)
    (datasets : list Node.t) (records : list ProjectRecord)
  : (exn + list ProjectRecord) * list string :=
  match datasets with
  | [] => (inr records, [])
  | d :: rest =>
      match readme_candidates gittree d with
      | [] => (inl IndexError, [])
      | readme0 :: _ =>
          match up (readme_url gittree readme0) with
          | inl e => (inl e, [readme_url gittree readme0])
          | inr response =>
              match status_error response with
              | Some e => (inl e, [readme_url gittree readme0])
              | None =>
                  let rest_plan :=
                    collect_plan up gittree rest
                      (records ++ [record_of gittree d (text response)]) in
                  (fst rest_plan, readme_url gittree readme0 :: snd rest_plan)
              end
          end
      end
  end.

(** A documentation file of the snapshot: a blob whose path, lowercased,
    ends in "readme.md". *)
Definition is_readme (gittree : GitTree) (x : Node.t) : Prop :=
  In x (tree gittree) /\ Node.type x = "blob"
  /\ ends_with (PyStr.lower (Node.path x)) "readme.md".

(** The sub-catalog object the root catalog makes for a record. *)
Definition handle_of (gittree : GitTree) (r : ProjectRecord) : SubCatalogObj :=
  {| _tree := Some (JTree gittree); sc_name := Name r;
     sc_description := Some (Description r);
     sc_ttl := Some 99999999999; _entries := ∅ |}.

(** The key of a project in the root catalog. *)
Definition handle_key (r : ProjectRecord) : string :=
  PyStr.replace (Name r) "-" "_".

(** The dict from the keys of the records to the references
    [base], [base + 1], ... of their sub-catalogs. *)
Fixpoint handles (base : nat) (rs : list ProjectRecord)
    (m : gmap string nat) : gmap string nat :=
  match rs with
  | [] => m
  | r :: rest => handles (S base) rest (<[handle_key r := base]> m)
  end.

(** An upstream that answers the three API calls for the snapshot [g] on
    the branch "master", and serves the given pages besides. *)
Definition json_response (j : Json) : Response :=
  {| status_error := None; text := ""; json := inr j |}.

Definition github (g : GitTree) (pages : list (string * string))
    (url : string) : exn + Response :=
  if String.eqb url repo_url then inr (json_response (JRepo "master"))
  else if String.eqb url (branch_url "master")
       then inr (json_response (JBranch (sha g)))
  else if String.eqb url (tree_url (sha g)) then inr (json_response (JTree g))
  else serve pages url.

Definition elections_github : string -> exn + Response :=
  github elections
    [("https://raw.githubusercontent.com/fivethirtyeight/data/abc123/elections/README.md",
      "# Elections")].

(** Three documented projects, and an upstream that serves the
    documentation of the first only. *)
Definition three_projects : GitTree :=
  {| sha := "abc123";
     tree := [dir "a"; blob "a/README.md"; dir "b"; blob "b/README.md";
              dir "c"; blob "c/README.md"] |}.

Definition first_only : string -> exn + Response :=
  serve [("https://raw.githubusercontent.com/fivethirtyeight/data/abc123/a/README.md",
          "# A")].

(** The object after [self._tree = j]. *)
Definition with_json (o : SubCatalogObj) (j : Json) : SubCatalogObj :=
  {| _tree := Five38SubCatalog.json_attr j; sc_name := sc_name o;
     sc_description := sc_description o; sc_ttl := sc_ttl o;
     _entries := _entries o |}.

(** The answer of the third call and the urls the three calls request, as
    a function of the upstream. *)
Definition fetch_json_plan (up : string -> exn + Response)
  : (exn + Json) * list string :=
  match answer up repo_url with
  | inl e => (inl e, [repo_url])
  | inr (JRepo b) =>
      match answer up (branch_url b) with
      | inl e => (inl e, [repo_url; branch_url b])
      | inr (JBranch s) =>
          (answer up (tree_url s), [repo_url; branch_url b; tree_url s])
      | inr _ => (inl (KeyError "commit"), [repo_url; branch_url b])
      end
  | inr _ => (inl (KeyError "default_branch"), [repo_url])
  end.

(** A decoded value that is not a tree snapshot: reading its ["sha"]
    fails. *)
Definition shaless (j : Json) : Prop := forall g, j <> JTree g.

(** An upstream whose third answer is a value without ["sha"]. *)
Definition rate_limited (url : string) : exn + Response :=
  if String.eqb url repo_url then inr (json_response (JRepo "master"))
  else if String.eqb url (branch_url "master")
       then inr (json_response (JBranch "abc123"))
  else inr (json_response JOther).

(** The object after [self._tree = t]. *)
Definition with_tree (o : SubCatalogObj) (t : GitTree) : SubCatalogObj :=
  {| _tree := Some (JTree t); sc_name := sc_name o;
     sc_description := sc_description o; sc_ttl := sc_ttl o;
     _entries := _entries o |}.

(** The entries a loaded sub-catalog holds for the snapshot [g]. *)
Definition loaded_entries (self : nat) (o : SubCatalogObj) (g : GitTree)
  : gmap string LocalCatalogEntry.t :=
  registered self (sc_name o) (sha g)
    (Five38SubCatalog.output_list (sc_name o) g) ∅.

(** A sub-catalog without snapshot that holds an entry from before. *)
Definition stale : SubCatalogObj :=
  {| _tree := None; sc_name := "elections"; sc_description := None;
     sc_ttl := None;
     _entries := {[ "old.csv" :=
                      LocalCatalogEntry.mk "old.csv" "data file for elections"
                        "csv" 0%nat "https://example.org/old.csv" ]} |}.

(** The mapping [st'] has the dotted name, under [prefix], of every
    entry reached from [es] along at most [bound] names (one name, if
    [bound] is below 1). *)
Definition covers (cats : Five38Catalog.Catalogs)
    (es : list (string * Five38Catalog.Item)) (prefix : list string)
    (bound : Z) (st' : Five38Catalog.WalkState) : Prop :=
  forall path item,
    reaches cats es path item ->
    Z.of_nat (length path) <= Z.max 1 bound ->
    is_Some (Five38Catalog.out st' !! PyStr.join "." (prefix ++ path)).

(** The dotted name of an entry of the walked catalog. *)
Definition dotted_name (prefix : list string)
    (entry : string * Five38Catalog.Item) : string :=
  PyStr.join "." (prefix ++ [fst entry]).

(** * Properties *)

Example find_hit : PyStr.find "nba-elo" "elo" = 4.
Proof. reflexivity. Qed.
Example find_miss : PyStr.find "nba-elo" "/" = -1.
Proof. reflexivity. Qed.
Example endswith_readme :
  PyStr.endswith (PyStr.lower "nba/README.md") "readme.md" = true.
Proof. reflexivity. Qed.
Example replace_all_hits :
  PyStr.replace "abc/abc/a-b.csv" "abc/" "" = "a-b.csv".
Proof. reflexivity. Qed.
Example replace_hyphens :
  PyStr.replace "data-set-1.csv" "-" "_" = "data_set_1.csv".
Proof. reflexivity. Qed.
Example replace_empty_old : PyStr.replace "ab" "" "-" = "-a-b-".
Proof. reflexivity. Qed.
Example replace_no_overlap : PyStr.replace "aaa" "aa" "b" = "ba".
Proof. reflexivity. Qed.
Example join_dotted : PyStr.join "." ["a"; "b"; "c"] = "a.b.c".
Proof. reflexivity. Qed.

(** ** Facts about the string methods *)

Section StringFacts.
Import PyStr.

Lemma startswith_app (p r : string) : startswith (p +:+ r) p = true.
Proof.
  induction p as [|a p IH]; simpl; [reflexivity|].
  rewrite Ascii.eqb_refl. exact IH.
Qed.

Lemma startswith_inv (s p : string) :
  startswith s p = true -> exists r, s = p +:+ r.
Proof.
  revert s. induction p as [|a p IH]; intros s H; simpl in *.
  - exists s. reflexivity.
  - destruct s as [|b s]; [discriminate|].
    destruct (Ascii.eqb a b) eqn:E; [|discriminate].
    apply Ascii.eqb_eq in E. subst b.
    destruct (IH _ H) as [r ->]. exists r. reflexivity.
Qed.

Lemma startswith_spec (s p : string) :
  startswith s p = true <-> exists r, s = p +:+ r.
Proof.
  split; [apply startswith_inv|]. intros [r ->]. apply startswith_app.
Qed.

Lemma startswith_empty (s : string) : startswith s "" = true.
Proof. destruct s; reflexivity. Qed.

Lemma find_unfold (s sub : string) :
  find s sub =
  if startswith s sub then 0
  else match s with
       | EmptyString => -1
       | String _ s' => let r := find s' sub in if r <? 0 then -1 else r + 1
       end.
Proof. destruct s; reflexivity. Qed.

Lemma find_range (s sub : string) : find s sub = -1 \/ 0 <= find s sub.
Proof.
  induction s as [|c s IH]; rewrite find_unfold.
  - destruct (startswith "" sub); lia.
  - destruct (startswith (String c s) sub); [lia|].
    cbv zeta. destruct (Z.ltb_spec (find s sub) 0); lia.
Qed.

Lemma find_empty (s : string) : find s "" = 0.
Proof. rewrite find_unfold, startswith_empty. reflexivity. Qed.

Lemma find_hit_occurs (s sub : string) : 0 <= find s sub -> occurs_in sub s.
Proof.
  induction s as [|c s IH]; rewrite find_unfold.
  - destruct (startswith "" sub) eqn:E; [|lia].
    intros _. apply startswith_inv in E as [r E]. exists "", r. exact E.
  - destruct (startswith (String c s) sub) eqn:E.
    + intros _. apply startswith_inv in E as [r E]. exists "", r. exact E.
    + cbv zeta. destruct (Z.ltb_spec (find s sub) 0); [lia|].
      intros _. destruct (IH ltac:(lia)) as (pre & post & ->).
      exists (String c pre), post. reflexivity.
Qed.

Lemma occurs_find_hit (s sub : string) : occurs_in sub s -> 0 <= find s sub.
Proof.
  intros (pre & post & ->). induction pre as [|c pre IH].
  - change ("" +:+ sub +:+ post) with (sub +:+ post).
    rewrite find_unfold, startswith_app. lia.
  - change (String c pre +:+ sub +:+ post)
      with (String c (pre +:+ sub +:+ post)).
    rewrite find_unfold.
    destruct (startswith _ sub); [lia|].
    cbv zeta. destruct (Z.ltb_spec (find (pre +:+ sub +:+ post) sub) 0); lia.
Qed.

Lemma find_occurs (s sub : string) : 0 <= find s sub <-> occurs_in sub s.
Proof. split; [apply find_hit_occurs | apply occurs_find_hit]. Qed.

Lemma find_neg_iff (s sub : string) : find s sub < 0 <-> ~ occurs_in sub s.
Proof.
  rewrite <- find_occurs. destruct (find_range s sub); lia.
Qed.

Lemma append_cons (c : ascii) (a b : string) :
  String c a +:+ b = String c (a +:+ b).
Proof. reflexivity. Qed.

Lemma append_assoc (a b c : string) : (a +:+ b) +:+ c = a +:+ b +:+ c.
Proof.
  induction a as [|x a IH]; [reflexivity|].
  rewrite !append_cons, IH. reflexivity.
Qed.

Lemma length_append (a b : string) :
  String.length (a +:+ b) = (String.length a + String.length b)%nat.
Proof.
  induction a as [|x a IH]; [reflexivity|].
  rewrite append_cons. cbn [String.length]. rewrite IH. reflexivity.
Qed.

Lemma drop_append (a b : string) : drop (String.length a) (a +:+ b) = b.
Proof.
  induction a as [|x a IH]; [destruct b; reflexivity|].
  rewrite append_cons. cbn [String.length drop]. exact IH.
Qed.

Lemma drop_split (n : nat) (s : string) : exists pre, s = pre +:+ drop n s.
Proof.
  revert s. induction n as [|n IH]; intros s.
  - exists "". destruct s; reflexivity.
  - destruct s as [|c s]; [exists ""; reflexivity|].
    destruct (IH s) as [pre Hpre]. exists (String c pre).
    rewrite append_cons. cbn [drop]. rewrite <- Hpre. reflexivity.
Qed.

Lemma endswith_spec (s suf : string) :
  endswith s suf = true <-> ends_with s suf.
Proof.
  unfold endswith, ends_with. rewrite andb_true_iff, String.eqb_eq. split.
  - intros [_ H].
    destruct (drop_split (String.length s - String.length suf) s) as [pre Hp].
    exists pre. rewrite <- H. exact Hp.
  - intros [pre ->]. rewrite length_append. split.
    + apply Nat.leb_le. lia.
    + replace (String.length pre + String.length suf - String.length suf)%nat
        with (String.length pre) by lia.
      apply drop_append.
Qed.

(** ** [replace] *)

Lemma replace_from_skip (q r old new : string) :
  replace_from (String.length q) (q +:+ r) old new = replace_from O r old new.
Proof.
  induction q as [|c q IH]; [destruct r; reflexivity|].
  rewrite append_cons. cbn [String.length replace_from]. exact IH.
Qed.

Lemma replace_from_prefix (a : ascii) (old' r new : string) :
  replace_from O (String a old' +:+ r) (String a old') new
  = new +:+ replace_from O r (String a old') new.
Proof.
  change (String a old' +:+ r) with (String a (old' +:+ r)).
  cbn [replace_from].
  change (String a (old' +:+ r)) with (String a old' +:+ r).
  rewrite startswith_app. f_equal.
  cbn [String.length]. rewrite Nat.sub_1_r. cbn [Nat.pred].
  apply replace_from_skip.
Qed.

Lemma replace_from_absent (s old new : string) :
  ~ occurs_in old s -> replace_from O s old new = s.
Proof.
  induction s as [|c s IH]; intros Hno; [reflexivity|].
  cbn [replace_from].
  destruct (startswith (String c s) old) eqn:E.
  - exfalso. apply Hno. apply startswith_inv in E as [r E].
    exists "", r. exact E.
  - f_equal. apply IH. intros (pre & post & ->). apply Hno.
    exists (String c pre), post. reflexivity.
Qed.

(** Removing [old] from a string that starts with it and holds it nowhere
    else strips the prefix. *)
Lemma replace_strips_prefix (old rest : string) :
  old <> "" -> ~ occurs_in old rest ->
  replace (old +:+ rest) old "" = rest.
Proof.
  intros Hne Hno. destruct old as [|a old']; [congruence|].
  unfold replace. rewrite replace_from_prefix. simpl.
  apply replace_from_absent, Hno.
Qed.

Lemma append_slash_nonempty (n : string) : n +:+ "/" <> "".
Proof. destruct n; discriminate. Qed.

End StringFacts.

(** ** The monad *)

Lemma bind_ret_run {A B} (a : A) (k : A -> M B) (w : World) :
  bind (ret a) k w = k a w.
Proof. reflexivity. Qed.

Lemma bind_run_inr {A B} (m : M A) (k : A -> M B) (w w' : World) (a : A) :
  m w = (inr a, w') -> bind m k w = k a w'.
Proof. intros H. unfold bind. rewrite H. reflexivity. Qed.

(** ** The three calls that fetch the tree *)

Lemma add_requests_nil (w : World) : add_requests w [] = w.
Proof. destruct w. unfold add_requests. simpl. rewrite app_nil_r. reflexivity. Qed.

Lemma add_requests_app (w : World) (us vs : list string) :
  add_requests (add_requests w us) vs = add_requests w (us ++ vs).
Proof. unfold add_requests. simpl. rewrite app_assoc. reflexivity. Qed.

(** One GET with its status check and its decoding. *)
Lemma get_json_run {A} (url : string) (k : Json -> M A) (w : World) :
  bind (requests_get url)
    (fun response =>
       bind (raise_for_status response)
         (fun _ => bind (lift (json response)) k)) w
  = match answer (upstream w) url with
    | inl e => (inl e, add_requests w [url])
    | inr j => k j (add_requests w [url])
    end.
Proof.
  unfold bind at 1, requests_get, answer. fold (add_requests w [url]).
  destruct (upstream w url) as [e|response]; [reflexivity|].
  unfold bind at 1, raise_for_status.
  destruct (status_error response); [reflexivity|].
  unfold ret, bind, lift. destruct (json response); reflexivity.
Qed.

(** The three calls, as a function of the upstream alone. *)
Lemma fetch_tree_run (w : World) :
  fetch_tree w = (fst (fetch_plan (upstream w)),
                  add_requests w (snd (fetch_plan (upstream w)))).
Proof.
  unfold fetch_tree, fetch_plan.
  fold repo_url. rewrite get_json_run.
  destruct (answer (upstream w) repo_url) as [e|j]; [reflexivity|].
  destruct j as [b| | | |]; try reflexivity.
  rewrite bind_ret_run. fold (branch_url b). rewrite get_json_run.
  change (upstream (add_requests w [repo_url])) with (upstream w).
  destruct (answer (upstream w) (branch_url b)) as [e|j];
    [rewrite add_requests_app; reflexivity|].
  destruct j as [|s| | |]; try (cbn; rewrite add_requests_app; reflexivity).
  rewrite bind_ret_run. fold (tree_url s). rewrite get_json_run.
  change (upstream (add_requests (add_requests w [repo_url]) [branch_url b]))
    with (upstream w).
  rewrite !add_requests_app.
  destruct (answer (upstream w) (tree_url s)) as [e|j]; [reflexivity|].
  destruct j; reflexivity.
Qed.

Lemma fetch_tree_heap (w w1 : World) (r : exn + GitTree) :
  fetch_tree w = (r, w1) -> heap w1 = heap w /\ upstream w1 = upstream w.
Proof. rewrite fetch_tree_run. intros [= _ <-]. split; reflexivity. Qed.

(** ** The project indexer *)

Lemma project_list_incl (k : option string) (g : GitTree) (x : Node.t) :
  In x (project_list k g) -> In x (top_level_dirs g).
Proof.
  destruct k as [k|]; simpl; [|tauto].
  intros H. apply filter_In in H. tauto.
Qed.

Lemma project_list_occurs (k : string) (g : GitTree) (x : Node.t) :
  In x (project_list (Some k) g) -> occurs_in k (Node.path x).
Proof.
  simpl. intros H. apply filter_In in H as [_ H].
  apply find_occurs. lia.
Qed.

Lemma project_list_empty_keyword (g : GitTree) :
  project_list (Some "") g = project_list None g.
Proof.
  simpl. induction (top_level_dirs g) as [|x l IH]; simpl; [reflexivity|].
  rewrite find_empty. simpl. f_equal. exact IH.
Qed.

(** One turn of the loop of [get_projects], as the equation it satisfies. *)
Lemma collect_records_step (g : GitTree) (d : Node.t) (rest : list Node.t)
    (recs : list ProjectRecord) (w : World) :
  collect_records g (d :: rest) recs w =
  match readme_candidates g d with
  | [] => (inl IndexError, w)
  | readme0 :: _ =>
      let w1 := {| upstream := upstream w;
                   requests := requests w ++ [readme_url g readme0];
                   heap := heap w |} in
      match upstream w (readme_url g readme0) with
      | inl e => (inl e, w1)
      | inr response =>
          match status_error response with
          | Some e => (inl e, w1)
          | None =>
              collect_records g rest
                (recs ++ [{| Name := Node.path d;
                             Description := text response;
                             URL := GH_URL +:+ "/" +:+ REPO +:+ "/tree/"
                                      +:+ sha g +:+ "/" +:+ Node.path d |}])
                w1
          end
      end
  end.
Proof.
  simpl. destruct (readme_candidates g d) as [|r0 rs]; [reflexivity|].
  unfold bind at 1. simpl. unfold bind at 1, requests_get. simpl.
  fold (readme_url g r0).
  destruct (upstream w (readme_url g r0)) as [e|response]; [reflexivity|].
  unfold bind at 1, raise_for_status.
  destruct (status_error response); reflexivity.
Qed.

(** Nothing the indexer does changes the upstream or the object store. *)
Lemma collect_records_world (g : GitTree) (ds : list Node.t) :
  forall recs w r w',
    collect_records g ds recs w = (r, w') ->
    upstream w' = upstream w /\ heap w' = heap w.
Proof.
  induction ds as [|d ds IH]; intros recs w r w'.
  - intros [= <- <-]. split; reflexivity.
  - rewrite collect_records_step.
    destruct (readme_candidates g d) as [|r0 rs].
    { intros [= <- <-]. split; reflexivity. }
    cbv zeta.
    destruct (upstream w (readme_url g r0)) as [e|response].
    { intros [= <- <-]. split; reflexivity. }
    destruct (status_error response).
    { intros [= <- <-]. split; reflexivity. }
    intros H. apply IH in H. simpl in H. exact H.
Qed.

(** A run of the loop that returns has made one record per directory, in
    order, after the records it started with. *)
Lemma collect_records_ok (g : GitTree) (ds : list Node.t) :
  forall recs w rs w',
    collect_records g ds recs w = (inr rs, w') ->
    exists rs', rs = recs ++ rs' /\ Forall2 (documents (upstream w) g) ds rs'.
Proof.
  induction ds as [|d ds IH]; intros recs w rs w'.
  - intros [= <- <-]. exists []. split; [symmetry; apply app_nil_r | constructor].
  - rewrite collect_records_step.
    destruct (readme_candidates g d) as [|r0 others] eqn:Hc; [discriminate|].
    cbv zeta.
    destruct (upstream w (readme_url g r0)) as [e|response] eqn:Hu;
      [discriminate|].
    destruct (status_error response) eqn:Hs; [discriminate|].
    intros H. apply IH in H as (rs' & -> & HF). simpl in HF.
    eexists (_ :: rs'). split.
    + rewrite <- app_assoc. reflexivity.
    + constructor; [|exact HF].
      split; [reflexivity|]. split; [reflexivity|].
      exists r0, others, response. rewrite Hc. auto.
Qed.

Lemma Forall2_documents_names (up : string -> exn + Response) (g : GitTree)
    (ds : list Node.t) (rs : list ProjectRecord) :
  Forall2 (documents up g) ds rs -> map Name rs = map Node.path ds.
Proof.
  induction 1 as [|d r ds rs [Hn _] _ IH]; simpl; [reflexivity|].
  rewrite Hn, IH. reflexivity.
Qed.

Lemma get_projects_names (k : option string) (g : GitTree) (render : bool)
    (w w' : World) (rs : DataFrame) :
  get_projects k (Some g) render w = (inr rs, w') ->
  map Name rs = map Node.path (project_list k g).
Proof.
  unfold get_projects. rewrite bind_ret_run. intros H.
  apply collect_records_ok in H as (rs' & -> & HF).
  simpl. eapply Forall2_documents_names, HF.
Qed.



Example get_projects_elections :
  get_projects None (Some elections) true (world_of elections_upstream) =
  (inr [{| Name := "elections"; Description := "# Elections";
           URL := "https://www.github.com/fivethirtyeight/data/tree/abc123/elections" |}],
   {| upstream := elections_upstream;
      requests := ["https://raw.githubusercontent.com/fivethirtyeight/data/abc123/elections/README.md"];
      heap := [] |}).
Proof. vm_compute. reflexivity. Qed.





(** The second of three projects has no documentation file, and the
    documentation of the third is not served: the index fault of the
    second is what the call raises, after the fetch for the first. *)
Example get_projects_second_undocumented :
  get_projects None (Some second_undocumented) true (world_of first_only)
  = (inl IndexError,
     {| upstream := first_only;
        requests := ["https://raw.githubusercontent.com/fivethirtyeight/data/abc123/a/README.md"];
        heap := [] |}).
Proof. vm_compute. reflexivity. Qed.

(** The first of three projects is served, the second is not, and the
    third has no documentation file: the call raises the error of the
    fetch for the second. *)
Example get_projects_fetch_fails_first :
  get_projects None
    (Some {| sha := "abc123";
             tree := [dir "a"; blob "a/README.md"; dir "b";
                      blob "b/README.md"; dir "c"] |})
    true (world_of first_only)
  = (inl (HTTPError "https://raw.githubusercontent.com/fivethirtyeight/data/abc123/b/README.md"),
     {| upstream := first_only;
        requests := ["https://raw.githubusercontent.com/fivethirtyeight/data/abc123/a/README.md";
                     "https://raw.githubusercontent.com/fivethirtyeight/data/abc123/b/README.md"];
        heap := [] |}).
Proof. vm_compute. reflexivity. Qed.

(** C4: [get_projects] with a keyword [k] (non-empty or not) returns only
    records whose name contains [k]; their names are paths of top-level
    directories of the snapshot, and are among the names that
    [get_projects] returns without a keyword. *)
Theorem get_projects_keyword_subset (k : string) (g : GitTree)
    (render : bool) (w w' : World) (rs : DataFrame) :
  get_projects (Some k) (Some g) render w = (inr rs, w') ->
  Forall (fun r => occurs_in k (Name r)) rs
  /\ (forall n, In n (map Name rs) ->
                In n (map Node.path (top_level_dirs g)))
  /\ (forall render0 w0 w0' rs0,
        get_projects None (Some g) render0 w0 = (inr rs0, w0') ->
        forall n, In n (map Name rs) -> In n (map Name rs0)).
Proof.
  intros Hrun. pose proof (get_projects_names _ _ _ _ _ _ Hrun) as Hnames.
  assert (Hsub : forall n, In n (map Name rs) ->
                           In n (map Node.path (top_level_dirs g))).
  { intros n Hn. rewrite Hnames in Hn. apply in_map_iff in Hn as (x & <- & Hx).
    apply in_map. eapply project_list_incl, Hx. }
  split; [|split].
  - apply Forall_forall. intros r Hr.
    assert (Hn : In (Name r) (map Name rs)) by (apply in_map; apply list_elem_of_In; exact Hr).
    rewrite Hnames in Hn. apply in_map_iff in Hn as (x & <- & Hx).
    eapply project_list_occurs, Hx.
  - exact Hsub.
  - intros render0 w0 w0' rs0 Hrun0 n Hn.
    rewrite (get_projects_names _ _ _ _ _ _ Hrun0). simpl. auto.
Qed.

Lemma get_projects_keyword_subset_witness :
  Forall (fun r => occurs_in "elec" (Name r))
    [{| Name := "elections"; Description := "# Elections";
        URL := "https://www.github.com/fivethirtyeight/data/tree/abc123/elections" |}]
  /\ (forall n,
        In n (map Name
          [{| Name := "elections"; Description := "# Elections";
              URL := "https://www.github.com/fivethirtyeight/data/tree/abc123/elections" |}]) ->
        In n (map Node.path (top_level_dirs elections)))
  /\ (forall render0 w0 w0' rs0,
        get_projects None (Some elections) render0 w0 = (inr rs0, w0') ->
        forall n,
          In n (map Name
            [{| Name := "elections"; Description := "# Elections";
                URL := "https://www.github.com/fivethirtyeight/data/tree/abc123/elections" |}]) ->
          In n (map Name rs0)).
Proof.
  apply (get_projects_keyword_subset "elec" elections true
           (world_of elections_upstream)
           {| upstream := elections_upstream;
              requests := ["https://raw.githubusercontent.com/fivethirtyeight/data/abc123/elections/README.md"];
              heap := [] |}).
  vm_compute. reflexivity.
Defined.

(** When every directory has its documentation served, the loop returns
    one record per directory, in order, after the records it started
    with. *)
Lemma collect_records_documented (g : GitTree) (ds : list Node.t) :
  forall recs w,
    (forall d, In d ds -> exists r, documents (upstream w) g d r) ->
    exists rs' w',
      collect_records g ds recs w = (inr (recs ++ rs'), w')
      /\ Forall2 (documents (upstream w) g) ds rs'.
Proof.
  induction ds as [|d ds IH]; intros recs w Hdoc.
  { exists [], w. rewrite app_nil_r. split; [reflexivity|constructor]. }
  rewrite collect_records_step.
  destruct (Hdoc d (or_introl eq_refl))
    as (r & Hn & Hurl & r0 & others & response & Hc & Hu & Hs & Hd).
  rewrite Hc. cbv zeta. rewrite Hu, Hs.
  match goal with |- context [collect_records g ds ?r1 ?w1] =>
    destruct (IH r1 w1) as (rs' & w' & Hrun & HF) end.
  { intros d' Hd'. apply Hdoc. right. exact Hd'. }
  cbn [upstream] in HF.
  eexists (_ :: rs'), w'. split.
  - rewrite Hrun, <- app_assoc. reflexivity.
  - constructor; [|exact HF].
    split; [reflexivity|]. split; [reflexivity|].
    exists r0, others, response. auto.
Qed.

(** C5: with the empty string as keyword and with no keyword,
    [get_projects] keeps all candidate directories: the two calls do the
    same requests and return the same frame, or fail alike. The frame
    returned has one record for each top-level directory of the snapshot,
    given or fetched, in the order of the snapshot; and on a given
    snapshot it is returned whenever the documentation of every top-level
    directory is served. *)
Theorem get_projects_empty_keyword (gittree : option GitTree) (render : bool)
    (w : World) :
  get_projects (Some "") gittree render w = get_projects None gittree render w
  /\ (forall g, project_list (Some "") g = top_level_dirs g)
  /\ (forall rs w',
        get_projects (Some "") gittree render w = (inr rs, w') ->
        exists g,
          match gittree with
          | Some t => g = t
          | None => exists w1, fetch_tree w = (inr g, w1)
          end
          /\ Forall2 (documents (upstream w) g) (top_level_dirs g) rs
          /\ map Name rs = map Node.path (top_level_dirs g))
  /\ (forall g,
        gittree = Some g ->
        (forall d, In d (top_level_dirs g) ->
                   exists r, documents (upstream w) g d r) ->
        exists rs w',
          get_projects (Some "") gittree render w = (inr rs, w')
          /\ Forall2 (documents (upstream w) g) (top_level_dirs g) rs).
Proof.
  split; [|split; [intros g; apply project_list_empty_keyword|split]].
  - unfold get_projects, bind.
    destruct (match gittree with None => fetch_tree | Some t => ret t end w)
      as [[e|g] w1]; [reflexivity|].
    rewrite project_list_empty_keyword. reflexivity.
  - intros rs w'. unfold get_projects, bind.
    destruct gittree as [t|].
    + unfold ret at 1. intros H.
      apply collect_records_ok in H as (rs' & -> & HF).
      rewrite project_list_empty_keyword in HF. cbn [project_list] in HF.
      exists t. split; [reflexivity|]. split; [exact HF|].
      eapply Forall2_documents_names, HF.
    + destruct (fetch_tree w) as [[e|g] w1] eqn:Hfetch; [discriminate|].
      intros H.
      apply collect_records_ok in H as (rs' & -> & HF).
      rewrite project_list_empty_keyword in HF. cbn [project_list] in HF.
      assert (Hup : upstream w1 = upstream w)
        by (eapply fetch_tree_heap, Hfetch).
      exists g. split; [exists w1; reflexivity|].
      rewrite <- Hup. split; [exact HF|].
      eapply Forall2_documents_names, HF.
  - intros g -> Hdoc. unfold get_projects. rewrite bind_ret_run.
    rewrite project_list_empty_keyword. cbn [project_list].
    destruct (collect_records_documented g (top_level_dirs g) [] w Hdoc)
      as (rs' & w' & Hrun & HF).
    exists rs', w'. split; [exact Hrun|exact HF].
Qed.

Lemma filter_nil_false {A} (f : A -> bool) (l : list A) :
  (forall x, In x l -> f x = false) -> List.filter f l = [].
Proof.
  induction l as [|a l IH]; intros H; simpl; [reflexivity|].
  rewrite (H a (or_introl eq_refl)). apply IH. intros x Hx. apply H. right. exact Hx.
Qed.

Lemma top_level_dirs_In (g : GitTree) (x : Node.t) :
  In x (top_level_dirs g) <->
  In x (tree g) /\ Node.type x = "tree" /\ ~ occurs_in "/" (Node.path x).
Proof.
  unfold top_level_dirs. rewrite filter_In, andb_true_iff, String.eqb_eq.
  rewrite Z.ltb_lt, find_neg_iff. tauto.
Qed.

(** C10: when the keyword occurs in the path of no top-level tree node,
    [get_projects] returns the empty frame, and the world is as before:
    nothing was raised and nothing was requested. *)
Theorem get_projects_no_match (k : string) (g : GitTree) (render : bool)
    (w : World) :
  (forall x, In x (tree g) -> Node.type x = "tree" ->
             ~ occurs_in "/" (Node.path x) -> ~ occurs_in k (Node.path x)) ->
  get_projects (Some k) (Some g) render w = (inr [], w).
Proof.
  intros Hno. unfold get_projects. rewrite bind_ret_run.
  assert (Hnil : project_list (Some k) g = []).
  { simpl. apply filter_nil_false. intros x Hx.
    apply top_level_dirs_In in Hx as (Hin & Hty & Htop).
    apply Z.leb_gt. apply find_neg_iff. auto. }
  rewrite Hnil. reflexivity.
Qed.

Lemma not_occurs_by_find (sub s : string) :
  PyStr.find s sub = -1 -> ~ occurs_in sub s.
Proof. intros H. apply find_neg_iff. lia. Qed.

Lemma get_projects_no_match_witness :
  get_projects (Some "nfl") (Some nba) true (world_of nba_upstream)
  = (inr [], world_of nba_upstream).
Proof.
  apply (get_projects_no_match "nfl" nba true (world_of nba_upstream)).
  intros x Hx _ _. apply not_occurs_by_find.
  simpl in Hx. repeat (destruct Hx as [<-|Hx]; [vm_compute; reflexivity|]).
  destruct Hx.
Defined.

(** The true half of C3: every record that [get_projects] returns is
    described by the text served for the first candidate, in snapshot
    order, among the blobs whose path starts with the directory's path and,
    lowercased, ends in "readme.md". *)
Lemma get_projects_first_candidate (k : option string) (g : GitTree)
    (render : bool) (w w' : World) (rs : DataFrame) :
  get_projects k (Some g) render w = (inr rs, w') ->
  Forall2 (documents (upstream w) g) (project_list k g) rs.
Proof.
  unfold get_projects. rewrite bind_ret_run. intros H.
  apply collect_records_ok in H as (rs' & -> & HF). exact HF.
Qed.

(** C3, where the code departs from it: on the snapshot [nba] the
    description of the project "nba" is the text of "nba-elo/README.md",
    a file of another project directory, because line 49 tests
    [startswith(dataset['path'])] without the "/" that closes the
    directory name. *)
Theorem get_projects_readme_of_other_project :
  get_projects None (Some nba) true (world_of nba_upstream) =
  (inr [{| Name := "nba-elo"; Description := "# NBA Elo";
           URL := "https://www.github.com/fivethirtyeight/data/tree/abc123/nba-elo" |};
        {| Name := "nba"; Description := "# NBA Elo";
           URL := "https://www.github.com/fivethirtyeight/data/tree/abc123/nba" |}],
   {| upstream := nba_upstream;
      requests :=
        ["https://raw.githubusercontent.com/fivethirtyeight/data/abc123/nba-elo/README.md";
         "https://raw.githubusercontent.com/fivethirtyeight/data/abc123/nba-elo/README.md"];
      heap := [] |})
  /\ ~ PyStr.startswith "nba-elo/README.md" "nba/" = true.
Proof. split; [vm_compute; reflexivity | vm_compute; discriminate]. Qed.

(** ** Dicts filled by a loop *)

Section PutAll.
Context {A V : Type} (key : A -> string) (val : A -> V).

Lemma put_all_cons (a : A) (l : list A) (m : gmap string V) :
  put_all key val (a :: l) m = put_all key val l (<[key a := val a]> m).
Proof. reflexivity. Qed.

(** The value under [k] is the one of the last element with that key. *)
Lemma put_all_lookup_Some (l : list A) :
  forall (m : gmap string V) (k : string) (v : V),
    put_all key val l m !! k = Some v <->
    (exists pre x post,
        l = pre ++ x :: post /\ key x = k
        /\ (forall y, In y post -> key y <> k) /\ v = val x)
    \/ ((forall y, In y l -> key y <> k) /\ m !! k = Some v).
Proof.
  induction l as [|a l IH]; intros m k v.
  - split.
    + intros H. right. split; [intros y []|exact H].
    + intros [(pre & x & post & Hl & _)|[_ H]]; [|exact H].
      destruct pre; discriminate.
  - rewrite put_all_cons, IH. split.
    + intros [(pre & x & post & -> & Hk & Hpost & ->)|[Hl Hm]].
      * left. exists (a :: pre), x, post. auto.
      * destruct (decide (key a = k)) as [Ha|Ha].
        -- rewrite Ha, lookup_insert_eq in Hm. injection Hm as <-.
           left. exists [], a, l. auto.
        -- rewrite lookup_insert_ne in Hm by exact Ha.
           right. split; [|exact Hm]. intros y [<-|Hy]; auto.
    + intros [(pre & x & post & Hl & Hk & Hpost & ->)|[Hl Hm]].
      * destruct pre as [|a' pre]; simpl in Hl; injection Hl as -> ->.
        -- right. split; [exact Hpost|]. rewrite <- Hk. apply lookup_insert_eq.
        -- left. exists pre, x, post. auto.
      * right. split; [intros y Hy; apply Hl; right; exact Hy|].
        rewrite lookup_insert_ne; [exact Hm|]. apply Hl. left. reflexivity.
Qed.

Lemma put_all_lookup_None (l : list A) (m : gmap string V) (k : string) :
  put_all key val l m !! k = None <->
  (forall y, In y l -> key y <> k) /\ m !! k = None.
Proof.
  revert m. induction l as [|a l IH]; intros m.
  - simpl. split; [intros H; split; [intros y []|exact H] | tauto].
  - rewrite put_all_cons, IH. split.
    + intros [Hl Hm]. destruct (decide (key a = k)) as [Ha|Ha].
      * rewrite Ha, lookup_insert_eq in Hm. discriminate.
      * rewrite lookup_insert_ne in Hm by exact Ha.
        split; [|exact Hm]. intros y [<-|Hy]; auto.
    + intros [Hl Hm]. split; [intros y Hy; apply Hl; right; exact Hy|].
      rewrite lookup_insert_ne; [exact Hm|]. apply Hl. left. reflexivity.
Qed.

(** Every element has its key in the dict. *)
Lemma put_all_lookup_In (l : list A) (m : gmap string V) (x : A) :
  In x l -> is_Some (put_all key val l m !! key x).
Proof.
  intros Hx. destruct (put_all key val l m !! key x) eqn:E; [eauto|].
  apply put_all_lookup_None in E as [E _]. exfalso. exact (E x Hx eq_refl).
Qed.

(** With pairwise distinct new keys, the dict grows by one per element. *)
Lemma put_all_size (l : list A) :
  forall m : gmap string V,
    NoDup (map key l) -> (forall y, In y l -> m !! key y = None) ->
    size (put_all key val l m) = (size m + length l)%nat.
Proof.
  induction l as [|a l IH]; intros m Hnd Hfresh.
  - simpl. lia.
  - rewrite put_all_cons. simpl in Hnd. apply NoDup_cons in Hnd as [Ha Hnd].
    rewrite IH; [| exact Hnd |].
    + rewrite map_size_insert_None by (apply Hfresh; left; reflexivity).
      simpl. lia.
    + intros y Hy. rewrite lookup_insert_ne; [apply Hfresh; right; exact Hy|].
      intros Heq. apply Ha. rewrite Heq. apply list_elem_of_In.
      apply in_map. exact Hy.
Qed.

End PutAll.

(** ** The project sub-catalog *)

Lemma with_entries_same (o : SubCatalogObj) : with_entries o (_entries o) = o.
Proof. destruct o. reflexivity. Qed.

Lemma with_heap_same (w : World) : with_heap w (heap w) = w.
Proof. destruct w. reflexivity. Qed.

Lemma set_entries_run (self : nat) (o : SubCatalogObj)
    (v : gmap string LocalCatalogEntry.t) (w : World) :
  heap w !! self = Some o ->
  Five38SubCatalog.set_entries self v w
  = (inr tt, with_heap w (<[self := with_entries o v]> (heap w))).
Proof.
  intros H. unfold Five38SubCatalog.set_entries, bind, deref. rewrite H.
  reflexivity.
Qed.

Lemma deref_run (self : nat) (o : SubCatalogObj) (w : World) :
  heap w !! self = Some o -> deref self w = (inr o, w).
Proof. intros H. unfold deref. rewrite H. reflexivity. Qed.

(** The loop of [_load] leaves the object with the entries [registered]. *)
Lemma register_run (self : nat) (sha : string) (csvs : list Node.t) :
  forall (o : SubCatalogObj) (w : World),
    heap w !! self = Some o ->
    Five38SubCatalog.register self sha csvs w
    = (inr tt,
       with_heap w
         (<[self := with_entries o
                      (registered self (sc_name o) sha csvs (_entries o))]>
            (heap w))).
Proof.
  induction csvs as [|a csvs IH]; intros o w Ho.
  - cbn [Five38SubCatalog.register]. unfold ret, registered. simpl.
    rewrite with_entries_same, list_insert_id by exact Ho.
    rewrite with_heap_same. reflexivity.
  - cbn [Five38SubCatalog.register].
    rewrite (bind_run_inr _ _ _ _ _ (deref_run _ _ _ Ho)).
    rewrite (bind_run_inr _ _ _ _ _ (set_entries_run _ _ _ _ Ho)).
    assert (Hlt : (self < length (heap w))%nat) by (eapply lookup_lt_Some, Ho).
    erewrite IH; cycle 1.
    { simpl. apply list_lookup_insert_eq. exact Hlt. }
    unfold with_heap, with_entries, registered. simpl.
    rewrite list_insert_insert_eq. reflexivity.
Qed.

(** [_load] on a sub-catalog that holds a snapshot: no request is made, and
    the object is left with the entries [registered] for its data files. *)
Lemma _load_run (self : nat) (o : SubCatalogObj) (g : GitTree) (w : World) :
  heap w !! self = Some o -> _tree o = Some (JTree g) ->
  Five38SubCatalog._load self w
  = (inr tt,
     with_heap w
       (<[self := with_entries o
                    (registered self (sc_name o) (sha g)
                       (Five38SubCatalog.output_list (sc_name o) g) ∅)]>
          (heap w))).
Proof.
  intros Ho Hg. unfold Five38SubCatalog._load.
  assert (Hlt : (self < length (heap w))%nat) by (eapply lookup_lt_Some, Ho).
  rewrite (bind_run_inr _ _ _ _ _ (set_entries_run _ _ ∅ _ Ho)).
  set (o1 := with_entries o ∅).
  set (w1 := with_heap w (<[self := o1]> (heap w))).
  assert (Ho1 : heap w1 !! self = Some o1)
    by (simpl; apply list_lookup_insert_eq; exact Hlt).
  rewrite (bind_run_inr _ _ _ _ _ (deref_run _ _ _ Ho1)).
  change (_tree o1) with (_tree o). rewrite Hg. rewrite bind_ret_run.
  rewrite (bind_run_inr _ _ _ _ _ (deref_run _ _ _ Ho1)).
  change (_tree o1) with (_tree o). rewrite Hg. rewrite bind_ret_run.
  rewrite (register_run _ _ _ o1 w1 Ho1).
  unfold w1, o1, with_heap, with_entries. simpl.
  rewrite list_insert_insert_eq. reflexivity.
Qed.

Lemma output_list_In (self_name : string) (g : GitTree) (x : Node.t) :
  In x (Five38SubCatalog.output_list self_name g) <->
  In x (tree g) /\ Node.type x = "blob"
  /\ (exists rest, Node.path x = (self_name +:+ "/") +:+ rest)
  /\ ends_with (PyStr.lower (Node.path x)) ".csv".
Proof.
  unfold Five38SubCatalog.output_list.
  rewrite filter_In, !andb_true_iff, String.eqb_eq, startswith_spec,
    endswith_spec.
  tauto.
Qed.

Example load_one_file_entries :
  registered 0 "abc" "abc123" (Five38SubCatalog.output_list "abc" one_file) ∅
  = {[ "data_set.csv" :=
         LocalCatalogEntry.mk "data_set.csv" "data file for abc" "csv" 0%nat
           "https://raw.githubusercontent.com/fivethirtyeight/data/abc123/abc/data-set.csv" ]}.
Proof. vm_compute. reflexivity. Qed.

(** C1, as stated, fails: the one entry of the sub-catalog loaded from the
    snapshot [one_file] is not named "data_set"; the extension stays in the
    name. *)
Lemma load_one_file_not_data_set :
  ~ (forall w self o g x,
       heap w !! self = Some o -> sc_name o = "abc" -> _tree o = Some (JTree g) ->
       Five38SubCatalog.output_list "abc" g = [x] ->
       Node.path x = "abc/data-set.csv" ->
       exists w' o' e,
         Five38SubCatalog._load self w = (inr tt, w')
         /\ heap w' !! self = Some o'
         /\ _entries o' = {[ "data_set" := e ]}
         /\ LocalCatalogEntry.name e = "data_set"
         /\ ends_with (LocalCatalogEntry.urlpath e) "abc/data-set.csv").
Proof.
  intros H.
  destruct (H (offline (sub_catalog one_file "abc")) 0%nat
              (sub_catalog one_file "abc") one_file (blob "abc/data-set.csv"))
    as (w' & o' & e & Hrun & Ho' & He & _); try reflexivity.
  rewrite (_load_run 0 (sub_catalog one_file "abc") one_file) in Hrun
    by reflexivity.
  injection Hrun as <-. simpl in Ho'. injection Ho' as <-.
  apply (f_equal (fun m => m !! "data_set.csv")) in He.
  rewrite lookup_singleton_ne in He by discriminate.
  vm_compute in He. discriminate.
Qed.

Lemma urlpath_ends_with_path (self : nat) (self_name sha : string)
    (x : Node.t) :
  ends_with
    (LocalCatalogEntry.urlpath (Five38SubCatalog.entry_of self self_name sha x))
    (Node.path x).
Proof.
  simpl. exists (RAW_URL +:+ "/" +:+ REPO +:+ "/" +:+ sha +:+ "/").
  rewrite !append_assoc. reflexivity.
Qed.

(** C1, amended: a sub-catalog for the project "abc" loaded from a
    snapshot whose one qualifying file is "abc/data-set.csv" holds exactly
    one entry; its name is "data_set.csv" and its source url ends with
    "abc/data-set.csv". Loading makes no request. *)
Theorem load_one_file (w : World) (self : nat) (o : SubCatalogObj)
    (g : GitTree) (x : Node.t) :
  heap w !! self = Some o -> sc_name o = "abc" -> _tree o = Some (JTree g) ->
  Five38SubCatalog.output_list "abc" g = [x] ->
  Node.path x = "abc/data-set.csv" ->
  exists w' o' e,
    Five38SubCatalog._load self w = (inr tt, w')
    /\ requests w' = requests w
    /\ heap w' !! self = Some o'
    /\ _entries o' = {[ "data_set.csv" := e ]}
    /\ LocalCatalogEntry.name e = "data_set.csv"
    /\ ends_with (LocalCatalogEntry.urlpath e) "abc/data-set.csv".
Proof.
  intros Ho Hname Hg Hout Hpath.
  assert (Hlt : (self < length (heap w))%nat) by (eapply lookup_lt_Some, Ho).
  assert (Hdn : Five38SubCatalog.dataset_name "abc" x = "data_set.csv").
  { unfold Five38SubCatalog.dataset_name. rewrite Hpath. reflexivity. }
  eexists _, _, (Five38SubCatalog.entry_of self "abc" (sha g) x).
  split; [apply (_load_run self o g w Ho Hg)|].
  split; [reflexivity|].
  split; [simpl; apply list_lookup_insert_eq; exact Hlt|].
  rewrite Hname, Hout. unfold registered, put_all. simpl.
  rewrite Hdn. split; [apply insert_empty|].
  split; [reflexivity|].
  rewrite <- Hpath. exact (urlpath_ends_with_path self "abc" (sha g) x).
Qed.

Lemma load_one_file_witness :
  exists w' o' e,
    Five38SubCatalog._load 0 (offline (sub_catalog one_file "abc"))
    = (inr tt, w')
    /\ requests w' = requests (offline (sub_catalog one_file "abc"))
    /\ heap w' !! 0%nat = Some o'
    /\ _entries o' = {[ "data_set.csv" := e ]}
    /\ LocalCatalogEntry.name e = "data_set.csv"
    /\ ends_with (LocalCatalogEntry.urlpath e) "abc/data-set.csv".
Proof.
  apply (load_one_file (offline (sub_catalog one_file "abc")) 0%nat
           (sub_catalog one_file "abc") one_file (blob "abc/data-set.csv"));
    reflexivity.
Defined.

Lemma dataset_name_strips (self_name rest : string) (x : Node.t) :
  Node.path x = (self_name +:+ "/") +:+ rest ->
  ~ occurs_in (self_name +:+ "/") rest ->
  Five38SubCatalog.dataset_name self_name x = PyStr.replace rest "-" "_".
Proof.
  intros Hpath Hno. unfold Five38SubCatalog.dataset_name. rewrite Hpath.
  rewrite replace_strips_prefix; [reflexivity | apply append_slash_nonempty | exact Hno].
Qed.

(** C6, as stated, fails: the snapshot [colliding] has two qualifying blob
    nodes under "abc/", and the loaded sub-catalog has one entry. *)
Lemma load_not_one_entry_per_file :
  ~ (forall w self o g,
       heap w !! self = Some o -> _tree o = Some (JTree g) ->
       exists w' o',
         Five38SubCatalog._load self w = (inr tt, w')
         /\ heap w' !! self = Some o'
         /\ size (_entries o')
            = length (Five38SubCatalog.output_list (sc_name o) g)
         /\ (forall x,
               In x (Five38SubCatalog.output_list (sc_name o) g) ->
               exists e,
                 _entries o' !!
                   PyStr.replace
                     (PyStr.drop (String.length (sc_name o +:+ "/"))
                                 (Node.path x)) "-" "_" = Some e
                 /\ LocalCatalogEntry.urlpath e
                    = RAW_URL +:+ "/" +:+ REPO +:+ "/" +:+ sha g +:+ "/"
                        +:+ Node.path x)).
Proof.
  intros H.
  destruct (H (offline (sub_catalog colliding "abc")) 0%nat
              (sub_catalog colliding "abc") colliding)
    as (w' & o' & Hrun & Ho' & Hsize & _); try reflexivity.
  rewrite (_load_run 0 (sub_catalog colliding "abc") colliding) in Hrun
    by reflexivity.
  injection Hrun as <-. simpl in Ho'. injection Ho' as <-.
  vm_compute in Hsize. discriminate.
Qed.

(** C6, amended: the loaded sub-catalog has an entry under the derived
    name of every blob node whose path starts with "<project_name>/" and
    case-insensitively ends in ".csv", and no other entry; the entry under
    a name is the one made for the last such node, in snapshot order, with
    that derived name, so that there is one entry per node when the
    derived names are pairwise distinct; an entry is named by its key and
    its source url is made of the raw host, the repository identifier, the
    commit sha and the full path of its node; the derived name is the path
    with the prefix "<project_name>/" stripped and hyphens replaced with
    underscores when "<project_name>/" does not occur in the rest of the
    path. *)
Theorem load_entries (w : World) (self : nat) (o : SubCatalogObj)
    (g : GitTree) :
  heap w !! self = Some o -> _tree o = Some (JTree g) ->
  let csvs := Five38SubCatalog.output_list (sc_name o) g in
  let derived := Five38SubCatalog.dataset_name (sc_name o) in
  exists w' o',
    Five38SubCatalog._load self w = (inr tt, w')
    /\ requests w' = requests w
    /\ heap w' !! self = Some o'
    /\ sc_name o' = sc_name o
    /\ (forall x,
          In x csvs <->
          In x (tree g) /\ Node.type x = "blob"
          /\ (exists rest, Node.path x = (sc_name o +:+ "/") +:+ rest)
          /\ ends_with (PyStr.lower (Node.path x)) ".csv")
    /\ (forall x, In x csvs -> is_Some (_entries o' !! derived x))
    /\ (forall k e,
          _entries o' !! k = Some e <->
          exists pre x post,
            csvs = pre ++ x :: post /\ derived x = k
            /\ (forall y, In y post -> derived y <> k)
            /\ e = LocalCatalogEntry.mk k ("data file for " +:+ sc_name o)
                     "csv" self
                     (RAW_URL +:+ "/" +:+ REPO +:+ "/" +:+ sha g +:+ "/"
                        +:+ Node.path x))
    /\ (NoDup (map derived csvs) -> size (_entries o') = length csvs)
    /\ (forall x rest,
          Node.path x = (sc_name o +:+ "/") +:+ rest ->
          ~ occurs_in (sc_name o +:+ "/") rest ->
          derived x = PyStr.replace rest "-" "_").
Proof.
  intros Ho Hg csvs derived.
  assert (Hlt : (self < length (heap w))%nat) by (eapply lookup_lt_Some, Ho).
  eexists _, _. split; [apply (_load_run self o g w Ho Hg)|].
  split; [reflexivity|].
  split; [simpl; apply list_lookup_insert_eq; exact Hlt|].
  split; [reflexivity|].
  split; [intros x; apply output_list_In|].
  cbn [_entries with_entries]. unfold registered. fold csvs. fold derived.
  split; [intros x Hx; apply put_all_lookup_In; exact Hx|].
  split; [|split].
  - intros k e. rewrite put_all_lookup_Some. split.
    + intros [(pre & x & post & Hl & Hk & Hpost & ->)|[_ Hm]].
      * exists pre, x, post. repeat split; try assumption.
        unfold Five38SubCatalog.entry_of. fold derived. rewrite Hk. reflexivity.
      * rewrite lookup_empty in Hm. discriminate.
    + intros (pre & x & post & Hl & Hk & Hpost & ->). left.
      exists pre, x, post. repeat split; try assumption.
      unfold Five38SubCatalog.entry_of. fold derived. rewrite Hk. reflexivity.
  - intros Hnd. rewrite put_all_size; [rewrite map_size_empty; lia | exact Hnd |].
    intros y _. apply lookup_empty.
  - intros x rest. apply dataset_name_strips.
Qed.

Lemma load_entries_witness :
  let w := offline (sub_catalog nba "nba-elo") in
  let o := sub_catalog nba "nba-elo" in
  let csvs := Five38SubCatalog.output_list (sc_name o) nba in
  let derived := Five38SubCatalog.dataset_name (sc_name o) in
  exists w' o',
    Five38SubCatalog._load 0 w = (inr tt, w')
    /\ requests w' = requests w
    /\ heap w' !! 0%nat = Some o'
    /\ sc_name o' = sc_name o
    /\ (forall x,
          In x csvs <->
          In x (tree nba) /\ Node.type x = "blob"
          /\ (exists rest, Node.path x = (sc_name o +:+ "/") +:+ rest)
          /\ ends_with (PyStr.lower (Node.path x)) ".csv")
    /\ (forall x, In x csvs -> is_Some (_entries o' !! derived x))
    /\ (forall k e,
          _entries o' !! k = Some e <->
          exists pre x post,
            csvs = pre ++ x :: post /\ derived x = k
            /\ (forall y, In y post -> derived y <> k)
            /\ e = LocalCatalogEntry.mk k ("data file for " +:+ sc_name o)
                     "csv" 0%nat
                     (RAW_URL +:+ "/" +:+ REPO +:+ "/" +:+ sha nba +:+ "/"
                        +:+ Node.path x))
    /\ (NoDup (map derived csvs) -> size (_entries o') = length csvs)
    /\ (forall x rest,
          Node.path x = (sc_name o +:+ "/") +:+ rest ->
          ~ occurs_in (sc_name o +:+ "/") rest ->
          derived x = PyStr.replace rest "-" "_").
Proof.
  apply (load_entries (offline (sub_catalog nba "nba-elo")) 0%nat
           (sub_catalog nba "nba-elo") nba); reflexivity.
Defined.

Example load_nba_elo :
  Five38SubCatalog._load 0 (offline (sub_catalog nba "nba-elo"))
  = (inr tt,
     with_heap (offline (sub_catalog nba "nba-elo"))
       [with_entries (sub_catalog nba "nba-elo")
          {[ "nbaallelo.csv" :=
               LocalCatalogEntry.mk "nbaallelo.csv" "data file for nba-elo"
                 "csv" 0%nat
                 "https://raw.githubusercontent.com/fivethirtyeight/data/abc123/nba-elo/nbaallelo.csv" ]}]).
Proof. vm_compute. reflexivity. Qed.

(** The prefix is removed wherever it occurs, not only in front. *)
Example dataset_name_inner_occurrence :
  Five38SubCatalog.dataset_name "abc" (blob "abc/abc/a-b.csv") = "a_b.csv".
Proof. reflexivity. Qed.

(** C9: [search] on a sub-catalog ignores its keyword and its receiver: it
    returns the reference of a new object, the one the constructor makes
    without arguments: no snapshot, no description, no time-to-live, no
    entries, and for name what the base class leaves when none is given,
    whatever that is, not the project of the receiver. It makes no request
    and leaves every object of the store, the receiver among them, as it
    was. *)
Theorem search_fresh_unscoped (unnamed : string) (self : nat)
    (text : option string) (w : World) :
  exists w',
    Five38SubCatalog.search unnamed self text w = (inr (length (heap w)), w')
    /\ heap w !! length (heap w) = None
    /\ heap w' !! length (heap w) = Some (unscoped unnamed)
    /\ (forall r o, heap w !! r = Some o -> heap w' !! r = Some o)
    /\ length (heap w') = S (length (heap w))
    /\ requests w' = requests w
    /\ upstream w' = upstream w
    /\ (forall self' text',
          Five38SubCatalog.search unnamed self' text' w
          = Five38SubCatalog.search unnamed self text w).
Proof.
  eexists. split; [reflexivity|]. cbn [heap requests upstream].
  split; [apply lookup_ge_None; lia|].
  split; [apply list_lookup_middle; reflexivity|].
  split; [intros r o Hr; apply lookup_app_l_Some; exact Hr|].
  split; [rewrite length_app; simpl; lia|].
  repeat split.
Qed.

(** ** The flattening walk *)

Section Walk.
Import Five38Catalog.
Variable cats : Catalogs.

Lemma fold_left_ext {A B} (f g : A -> B -> A) (l : list B) (a : A) :
  (forall a b, In b l -> f a b = g a b) -> fold_left f l a = fold_left g l a.
Proof.
  revert a. induction l as [|b l IH]; intros a H; [reflexivity|].
  simpl. rewrite (H a b (or_introl eq_refl)). apply IH.
  intros a' b' Hb'. apply H. right. exact Hb'.
Qed.

(** The body looks at the method it recurses through only at
    [depth - 1], and only when [depth] is above 1. *)
Lemma walk_body_ext (rec1 rec2 : Z -> nat -> WalkState -> list string -> Outcome)
    (depth : Z) (self : nat) (st : WalkState) (prefix : list string) :
  (1 < depth ->
   forall sub st p, rec1 (depth - 1) sub st p = rec2 (depth - 1) sub st p) ->
  walk_body rec1 cats depth self st prefix
  = walk_body rec2 cats depth self st prefix.
Proof.
  intros H. unfold walk_body. destruct (reload (cats self)); [reflexivity|].
  f_equal. apply fold_left_ext. intros a [name item] _. unfold visit.
  destruct (String.eqb (container (snd (name, item))) "catalog"
            && (1 <? depth)) eqn:E; [|reflexivity].
  apply andb_true_iff in E as [_ E]. apply Z.ltb_lt in E.
  destruct (call (snd (name, item))); [reflexivity|].
  rewrite (H E). reflexivity.
Qed.

(** [walk_from] is the method of the source, calling itself. *)
Lemma walk_from_unfold (depth : Z) (self : nat) (st : WalkState)
    (prefix : list string) :
  walk_from cats depth self st prefix
  = walk_body (walk_from cats) cats depth self st prefix.
Proof.
  unfold walk_from. destruct (Z.to_nat depth) as [|n] eqn:En.
  - cbn [walk_rec]. apply walk_body_ext. intros H. lia.
  - cbn [walk_rec]. apply walk_body_ext. intros H sub st' p.
    replace (Z.to_nat (depth - 1)) with n by lia. reflexivity.
Qed.

(** At depth 1 or below there is no recursive call at all. *)
Lemma walk_from_shallow (depth : Z) (self : nat) (st : WalkState)
    (prefix : list string)
    (any : Z -> nat -> WalkState -> list string -> Outcome) :
  depth <= 1 ->
  walk_from cats depth self st prefix
  = walk_body any cats depth self st prefix.
Proof.
  intros H. rewrite walk_from_unfold. apply walk_body_ext. intros H'. lia.
Qed.

Lemma reaches_incl (es es' : list (string * Item)) (path : list string)
    (item : Item) :
  (forall x, In x es -> In x es') ->
  reaches cats es path item -> reaches cats es' path item.
Proof.
  intros Hincl H. destruct H.
  - apply reach_entry. auto.
  - eapply reach_nested; eauto.
Qed.

Lemma wrote_refl es prefix bound st : wrote cats es prefix bound st st.
Proof. intros k. left. reflexivity. Qed.

Lemma wrote_trans es1 es2 es prefix bound st1 st2 st3 :
  (forall x, In x es1 -> In x es) -> (forall x, In x es2 -> In x es) ->
  wrote cats es1 prefix bound st1 st2 ->
  wrote cats es2 prefix bound st2 st3 ->
  wrote cats es prefix bound st1 st3.
Proof.
  intros H1 H2 W1 W2 k.
  destruct (W2 k) as [E2|(path & item & Hk & Hb & Hr & Ho)].
  - destruct (W1 k) as [E1|(path & item & Hk & Hb & Hr & Ho)].
    + left. congruence.
    + right. exists path, item. split; [exact Hk|]. split; [exact Hb|].
      split; [exact (reaches_incl _ _ _ _ H1 Hr) | congruence].
  - right. exists path, item. split; [exact Hk|]. split; [exact Hb|].
    split; [exact (reaches_incl _ _ _ _ H2 Hr) | exact Ho].
Qed.

Section Loop.
Variable depth : Z.
Hypothesis below :
  1 < depth -> forall sub st p,
    walk_spec cats (depth - 1) sub st p
      (walk_from cats (depth - 1) sub st p).

Lemma visit_wrote (prefix : list string) (st : WalkState)
    (name : string) (item : Item) :
  wrote cats [(name, item)] prefix depth st
    (visit (walk_from cats) depth prefix st (name, item)).
Proof.
  intros k. unfold visit. cbn [fst snd].
  destruct (decide (PyStr.join "." (prefix ++ [name]) = k)) as [<-|Hk].
  { right. exists [name], item. split; [reflexivity|].
    split; [simpl; lia|]. split; [apply reach_entry; left; reflexivity|].
    apply lookup_insert_eq. }
  cbn [setitem out]. rewrite lookup_insert_ne by exact Hk.
  destruct (String.eqb (container item) "catalog" && (1 <? depth)) eqn:E;
    [|left; reflexivity].
  apply andb_true_iff in E as [Ec Ed].
  apply String.eqb_eq in Ec. apply Z.ltb_lt in Ed.
  destruct (call item) as [e|sub] eqn:Hcall; [left; reflexivity|].
  pose proof (below Ed sub st (prefix ++ [name])) as Hsub.
  unfold walk_spec in Hsub.
  destruct (reload (cats sub)) as [e|] eqn:Hre.
  { rewrite Hsub. left. reflexivity. }
  destruct (walk_from cats (depth - 1) sub st (prefix ++ [name]))
    as [st' r]. cbn [fst snd] in Hsub. destruct Hsub as [-> Hw].
  destruct (Hw k) as [E|(path & item' & Hkey & Hb & Hr & Ho)];
    [left; exact E|].
  right. exists (name :: path), item'.
  split; [rewrite Hkey, <- app_assoc; reflexivity|].
  split; [cbn [length]; lia|].
  split; [|exact Ho].
  eapply reach_nested; eauto. left. reflexivity.
Qed.

Lemma loop_wrote (prefix : list string) (l : list (string * Item)) :
  forall st,
    wrote cats l prefix depth st
      (fold_left (visit (walk_from cats) depth prefix) l st).
Proof.
  induction l as [|[name item] l IH]; intros st; [apply wrote_refl|].
  cbn [fold_left].
  eapply (wrote_trans [(name, item)] l);
    [| | apply visit_wrote | apply IH].
  - intros x [<-|[]]. left. reflexivity.
  - intros x Hx. right. exact Hx.
Qed.
End Loop.

(** Every call of [walk] meets [walk_spec]. *)
Lemma walk_from_spec (depth : Z) (self : nat) (st : WalkState)
    (prefix : list string) :
  walk_spec cats depth self st prefix (walk_from cats depth self st prefix).
Proof.
  remember (Z.to_nat depth) as n eqn:En.
  revert depth En self st prefix.
  induction n as [|n IH]; intros depth En self st prefix;
    rewrite walk_from_unfold; unfold walk_spec, walk_body;
    destruct (reload (cats self)); try reflexivity;
    (split; [reflexivity|]); cbn [fst]; apply loop_wrote; intros Hd.
  - lia.
  - intros sub st0 p. apply IH. lia.
Qed.

(** *** Dotted names *)

Lemma join_under (prefix : list string) (name : string) (rest : list string) :
  PyStr.join "." (prefix ++ name :: rest)
  = dotted prefix +:+ PyStr.join "." (name :: rest).
Proof.
  induction prefix as [|x prefix IH]; [reflexivity|].
  cbn [dotted app]. rewrite !append_assoc, <- IH.
  unfold PyStr.join. cbn [String.concat].
  destruct (prefix ++ name :: rest) eqn:E; [|reflexivity].
  destruct prefix; discriminate.
Qed.

Lemma reaches_head (es : list (string * Item)) (path : list string)
    (item : Item) :
  reaches cats es path item ->
  exists name rest,
    path = name :: rest
    /\ In name (map fst es)
    /\ (rest = [] -> In (name, item) es).
Proof.
  intros H. destruct H as [es name item H|es name item0 sub path item H _ _ _ Hr].
  - exists name, []. split; [reflexivity|]. split; [|auto].
    apply (in_map fst) in H. exact H.
  - exists name, path. split; [reflexivity|]. split.
    + apply (in_map fst) in H. exact H.
    + intros ->. inversion Hr.
Qed.

(** A dotted name made along a path is that of a direct entry without a
    dot in its name only if the path is that entry. *)
Lemma dotted_name_clash (prefix : list string) (name : string)
    (es : list (string * Item)) (path : list string) (item : Item) :
  ~ occurs_in "." name ->
  reaches cats es path item ->
  PyStr.join "." (prefix ++ [name]) = PyStr.join "." (prefix ++ path) ->
  In (name, item) es.
Proof.
  intros Hdot Hr Heq.
  destruct (reaches_head _ _ _ Hr) as (n & rest & -> & _ & Hlast).
  rewrite !join_under in Heq. apply String.app_inj in Heq.
  destruct rest as [|m rest].
  - cbn in Heq. subst n. auto.
  - exfalso. apply Hdot. exists n, (PyStr.join "." (m :: rest)).
    exact Heq.
Qed.

(** *** What the loop leaves for the entries it visits *)

Lemma visit_sets (rec_walk : Z -> nat -> WalkState -> list string -> Outcome)
    (depth : Z) (prefix : list string) (st : WalkState) (name : string)
    (item : Item) :
  out (visit rec_walk depth prefix st (name, item))
    !! PyStr.join "." (prefix ++ [name]) = Some item.
Proof. unfold visit, setitem. cbn [out fst snd]. apply lookup_insert_eq. Qed.

Lemma wrote_keeps es prefix bound st st' (k : string) :
  wrote cats es prefix bound st st' ->
  is_Some (out st !! k) -> is_Some (out st' !! k).
Proof.
  intros W H. destruct (W k) as [E|(path & item & _ & _ & _ & E)];
    rewrite E; [exact H | eauto].
Qed.

Lemma loop_wrote_all (depth : Z) (prefix : list string)
    (l : list (string * Item)) (st : WalkState) :
  wrote cats l prefix depth st
    (fold_left (visit (walk_from cats) depth prefix) l st).
Proof.
  apply loop_wrote. intros _ sub st0 p. apply walk_from_spec.
Qed.

Lemma loop_has_key (depth : Z) (prefix : list string)
    (l : list (string * Item)) (name : string) (item : Item) :
  In (name, item) l ->
  forall st,
    is_Some (out (fold_left (visit (walk_from cats) depth prefix) l st)
               !! PyStr.join "." (prefix ++ [name])).
Proof.
  induction l as [|[n0 i0] l IH]; intros Hin st; [destruct Hin|].
  cbn [fold_left]. destruct Hin as [[= -> ->]|Hin]; [|apply IH; exact Hin].
  eapply wrote_keeps; [apply loop_wrote_all|].
  rewrite visit_sets. eauto.
Qed.

Lemma loop_has_entry (depth : Z) (prefix : list string)
    (l : list (string * Item)) (name : string) (item : Item) :
  NoDup (map fst l) -> In (name, item) l -> ~ occurs_in "." name ->
  forall st,
    out (fold_left (visit (walk_from cats) depth prefix) l st)
      !! PyStr.join "." (prefix ++ [name]) = Some item.
Proof.
  induction l as [|[n0 i0] l IH]; intros Hnd Hin Hdot st; [destruct Hin|].
  cbn [map fst] in Hnd. apply NoDup_cons in Hnd as [Hfresh Hnd].
  cbn [fold_left]. destruct Hin as [[= -> ->]|Hin]; [|apply IH; assumption].
  destruct (loop_wrote_all depth prefix l
              (visit (walk_from cats) depth prefix st (name, item))
              (PyStr.join "." (prefix ++ [name])))
    as [E|(path & item' & Hkey & _ & Hr & _)].
  - rewrite E. apply visit_sets.
  - exfalso. apply Hfresh. apply list_elem_of_In.
    apply (dotted_name_clash _ _ _ _ _ Hdot Hr) in Hkey.
    apply (in_map fst) in Hkey. exact Hkey.
Qed.

(** C7: when the reload of the walked catalog goes through, [walk]
    returns: whatever is raised while a nested catalog entry is opened
    and walked is caught in the loop. The returned mapping has the dotted
    name of every entry of the catalog, the failing ones among them; and
    under the dotted name of an entry whose name has no dot it holds
    that entry, the names of the entries being those of a dict. *)
Theorem walk_suppresses_descent_failures (self : nat)
    (sofar : option (gmap string Item)) (prefix : option (list string))
    (depth : Z) (printed : list exn) :
  reload (cats self) = None ->
  exists st',
    walk cats self sofar prefix depth printed = (st', None)
    /\ (forall name item,
          In (name, item) (entries (cats self)) ->
          is_Some (out st' !! PyStr.join "." (default [] prefix ++ [name])))
    /\ (NoDup (map fst (entries (cats self))) ->
        forall name item,
          In (name, item) (entries (cats self)) ->
          ~ occurs_in "." name ->
          out st' !! PyStr.join "." (default [] prefix ++ [name])
          = Some item).
Proof.
  intros Hre. unfold walk. rewrite walk_from_unfold. unfold walk_body.
  rewrite Hre. eexists. split; [reflexivity|]. split.
  - intros name item Hin. apply (loop_has_key _ _ _ _ _ Hin).
  - intros Hnd name item Hin Hdot. apply loop_has_entry; assumption.
Qed.

(** C8: [walk] is a total function of the catalogs, cyclic or not, and
    of the depth. A call at [depth] recurses only at [depth - 1], and
    not at all when [depth] is 1 or below; every key of the mapping it
    leaves either holds what [sofar] held or is the dotted name of an
    entry reached along at most [depth] names (one name when [depth] is
    below 1), and holds that entry. *)
Theorem walk_depth_bound (self : nat) (sofar : option (gmap string Item))
    (prefix : option (list string)) (depth : Z) (printed : list exn) :
  (forall st p,
      walk_from cats depth self st p
      = walk_body (fun _ => walk_from cats (depth - 1)) cats depth self st p)
  /\ (depth <= 1 ->
      forall any st p,
        walk_from cats depth self st p
        = walk_body any cats depth self st p)
  /\ (forall k,
        out (fst (walk cats self sofar prefix depth printed)) !! k
        = default ∅ sofar !! k
        \/ exists path item,
             k = PyStr.join "." (default [] prefix ++ path)
             /\ 1 <= Z.of_nat (length path) <= Z.max 1 depth
             /\ reaches cats (entries (cats self)) path item
             /\ out (fst (walk cats self sofar prefix depth printed)) !! k
                = Some item).
Proof.
  split; [|split].
  - intros st p. rewrite walk_from_unfold. apply walk_body_ext. reflexivity.
  - intros Hd any st p. apply walk_from_shallow. exact Hd.
  - intros k. unfold walk.
    pose proof (walk_from_spec depth self
                  {| out := default ∅ sofar; stdout := printed |}
                  (default [] prefix)) as Hspec.
    unfold walk_spec in Hspec. destruct (reload (cats self)).
    + rewrite Hspec. left. reflexivity.
    + destruct Hspec as [_ Hw]. exact (Hw k).
Qed.

End Walk.

Lemma walk_suppresses_descent_failures_witness :
  exists st',
    Five38Catalog.walk flaky 0 None None 3 [] = (st', None)
    /\ (forall name item,
          In (name, item) (Five38Catalog.entries (flaky 0%nat)) ->
          is_Some (Five38Catalog.out st'
                     !! PyStr.join "." (default [] None ++ [name])))
    /\ (NoDup (map fst (Five38Catalog.entries (flaky 0%nat))) ->
        forall name item,
          In (name, item) (Five38Catalog.entries (flaky 0%nat)) ->
          ~ occurs_in "." name ->
          Five38Catalog.out st' !! PyStr.join "." (default [] None ++ [name])
          = Some item).
Proof.
  apply (walk_suppresses_descent_failures flaky 0%nat None None 3 []).
  reflexivity.
Defined.

(** C7, as stated, fails: the returned mapping does not always hold the
    failing entry under its dotted name. In [shadowed] the entry "bad.x"
    raises when it is opened and is put under "bad.x"; the walk then
    descends into its sibling "bad", whose entry "x" takes that name. *)
Lemma walk_loses_failing_entry :
  ~ (forall cats self sofar prefix depth printed,
       Five38Catalog.reload (cats self) = None ->
       NoDup (map fst (Five38Catalog.entries (cats self))) ->
       exists st',
         Five38Catalog.walk cats self sofar prefix depth printed = (st', None)
         /\ (forall name item,
               In (name, item) (Five38Catalog.entries (cats self)) ->
               Five38Catalog.out st'
                 !! PyStr.join "." (default [] prefix ++ [name])
               = Some item)).
Proof.
  intros H.
  destruct (H shadowed 0%nat None None Five38Catalog.default_depth []
              eq_refl) as (st' & Hrun & Hall).
  - apply (bool_decide_unpack _). vm_compute. exact I.
  - specialize (Hall "bad.x" (broken (HTTPError "repos"))
                     (or_introl eq_refl)).
    apply (f_equal fst) in Hrun. cbn [fst] in Hrun. subst st'.
    vm_compute in Hall. discriminate.
Qed.

(** What the walk of [shadowed] returns and prints. *)
Example walk_shadowed :
  Five38Catalog.walk shadowed 0 None None Five38Catalog.default_depth [] =
  ({| Five38Catalog.out :=
        {[ "bad.x" := leaf; "bad" := nested 1 ]};
      Five38Catalog.stdout := [HTTPError "repos"] |},
   None).
Proof. vm_compute. reflexivity. Qed.

(** A nested entry that raises when opened, and one whose load raises:
    both are printed, both are in the mapping, and so are their siblings. *)
Example walk_flaky :
  Five38Catalog.walk flaky 0 None None Five38Catalog.default_depth [] =
  ({| Five38Catalog.out :=
        {[ "good.x" := leaf; "good" := nested 1;
           "bad" := broken (HTTPError "repos");
           "stale" := nested 2; "plain" := leaf ]};
      Five38Catalog.stdout := [HTTPError "repos"; HTTPError "trees"] |},
   None).
Proof. vm_compute. reflexivity. Qed.

(** Five levels walked with [depth=2]: the names of the first two levels,
    the second kept as a catalog entry that is not opened. *)
Example walk_five_levels_depth_2 :
  Five38Catalog.walk five_levels 0 None None 2 [] =
  ({| Five38Catalog.out := {[ "a.b" := nested 2; "a" := nested 1 ]};
      Five38Catalog.stdout := [] |},
   None).
Proof. vm_compute. reflexivity. Qed.

Example walk_five_levels_depth_0 :
  Five38Catalog.walk five_levels 0 None None 0 [] =
  ({| Five38Catalog.out := {[ "a" := nested 1 ]};
      Five38Catalog.stdout := [] |},
   None).
Proof. vm_compute. reflexivity. Qed.

(** A catalog that holds itself, walked with the default depth. *)
Example walk_cyclic :
  Five38Catalog.walk cyclic 0 None None Five38Catalog.default_depth [] =
  ({| Five38Catalog.out :=
        {[ "again.again.again" := nested 0; "again.again.data" := leaf;
           "again.again" := nested 0; "again.data" := leaf;
           "again" := nested 0; "data" := leaf ]};
      Five38Catalog.stdout := [] |},
   None).
Proof. vm_compute. reflexivity. Qed.

(** When the reload of the walked catalog itself raises, the call raises:
    only what happens below an entry is caught. *)
Example walk_reload_raises :
  Five38Catalog.walk flaky 2 None None Five38Catalog.default_depth [] =
  ({| Five38Catalog.out := ∅; Five38Catalog.stdout := [] |},
   Some (HTTPError "trees")).
Proof. vm_compute. reflexivity. Qed.

(** An entry with a dot in its name can be overwritten by the descent into
    a later sibling. *)
Example walk_dotted_name_overwritten :
  Five38Catalog.out
    (fst (Five38Catalog.walk
            (fun c => match c with
                      | 0%nat => catalog_of [("a.b", leaf); ("a", nested 1)]
                      | _ => catalog_of [("b", nested 2)]
                      end)
            0 None None 2 []))
    !! "a.b" = Some (nested 2).
Proof. vm_compute. reflexivity. Qed.

(** * Further properties *)

(** ** The three calls that fetch the tree, continued *)

(** X1: the tree is fetched exactly when the three calls go through: the
    repository metadata names a default branch, the branch metadata names
    a commit, and the recursive listing of that commit is the tree. The
    three urls are requested in that order, and nothing else changes. *)
Theorem fetch_tree_succeeds_iff (w w' : World) (t : GitTree) :
  fetch_tree w = (inr t, w') <->
  exists b s,
    answer (upstream w) repo_url = inr (JRepo b)
    /\ answer (upstream w) (branch_url b) = inr (JBranch s)
    /\ answer (upstream w) (tree_url s) = inr (JTree t)
    /\ w' = add_requests w [repo_url; branch_url b; tree_url s].
Proof.
  rewrite fetch_tree_run. unfold fetch_plan. split.
  - intros H.
    destruct (answer (upstream w) repo_url) as [e|[b| | | |]] eqn:E1;
      try discriminate.
    destruct (answer (upstream w) (branch_url b)) as [e|[|s| | |]] eqn:E2;
      try discriminate.
    destruct (answer (upstream w) (tree_url s)) as [e|[| |t'| |]] eqn:E3;
      try discriminate.
    cbn in H. injection H as <- <-. exists b, s. auto.
  - intros (b & s & H1 & H2 & H3 & ->). rewrite H1, H2, H3. reflexivity.
Qed.



Example fetch_tree_elections :
  fetch_tree (world_of elections_github)
  = (inr elections,
     add_requests (world_of elections_github)
       ["https://api.github.com/repos/fivethirtyeight/data";
        "https://api.github.com/repos/fivethirtyeight/data/branches/master";
        "https://api.github.com/repos/fivethirtyeight/data/git/trees/abc123?recursive=1"]).
Proof. vm_compute. reflexivity. Qed.

(** ** The project indexer, continued *)

(** The loop of the indexer, as a function of the upstream alone. *)
Lemma collect_records_run (g : GitTree) (ds : list Node.t) :
  forall recs w,
    collect_records g ds recs w
    = (fst (collect_plan (upstream w) g ds recs),
       add_requests w (snd (collect_plan (upstream w) g ds recs))).
Proof.
  induction ds as [|d ds IH]; intros recs w.
  - cbn. rewrite add_requests_nil. reflexivity.
  - rewrite collect_records_step. cbn [collect_plan].
    destruct (readme_candidates g d) as [|r0 others].
    { cbn. rewrite add_requests_nil. reflexivity. }
    cbv zeta. fold (add_requests w [readme_url g r0]).
    destruct (upstream w (readme_url g r0)) as [e|response]; [reflexivity|].
    destruct (status_error response); [reflexivity|].
    rewrite IH. cbn [fst snd]. rewrite add_requests_app. reflexivity.
Qed.

Lemma get_projects_run (k : option string) (g : GitTree) (render : bool)
    (w : World) :
  get_projects k (Some g) render w
  = (fst (collect_plan (upstream w) g (project_list k g) []),
     add_requests w (snd (collect_plan (upstream w) g (project_list k g) []))).
Proof. unfold get_projects. rewrite bind_ret_run. apply collect_records_run. Qed.

Lemma filter_map_sublist {A B} (f : A -> B) (p : A -> bool) (l : list A) :
  sublist (map f (List.filter p l)) (map f l).
Proof.
  induction l as [|a l IH]; simpl; [constructor|].
  destruct (p a); simpl; [apply sublist_skip | apply sublist_cons]; exact IH.
Qed.

Lemma project_list_sublist (k : option string) (g : GitTree) :
  sublist (map Node.path (project_list k g)) (map Node.path (tree g)).
Proof.
  destruct k as [k|]; simpl.
  - etransitivity; [apply filter_map_sublist|]. apply filter_map_sublist.
  - apply filter_map_sublist.
Qed.

Lemma project_list_In (k : option string) (g : GitTree) (x : Node.t) :
  In x (project_list k g) <->
  In x (tree g) /\ Node.type x = "tree" /\ ~ occurs_in "/" (Node.path x)
  /\ (forall kw, k = Some kw -> occurs_in kw (Node.path x)).
Proof.
  destruct k as [k|]; simpl.
  - rewrite filter_In, top_level_dirs_In, Z.leb_le, find_occurs. split.
    + intros [(H1 & H2 & H3) H4]. repeat split; try assumption.
      intros kw [= <-]. exact H4.
    + intros (H1 & H2 & H3 & H4). auto.
  - rewrite top_level_dirs_In. split.
    + intros (H1 & H2 & H3). repeat split; try assumption. discriminate.
    + tauto.
Qed.

(** X3: the frame [get_projects] returns lists every top-level tree node
    of the snapshot whose path holds the keyword, when there is one, and
    nothing else; the names come in the order of the snapshot, none has a
    "/", and the link of a record is made of the web host, the repository,
    the commit sha and the name. *)
Theorem get_projects_lists_top_level_dirs (k : option string) (g : GitTree)
    (render : bool) (w w' : World) (rs : DataFrame) :
  get_projects k (Some g) render w = (inr rs, w') ->
  sublist (map Name rs) (map Node.path (tree g))
  /\ (forall n,
        In n (map Name rs) <->
        exists x, In x (tree g) /\ Node.path x = n /\ Node.type x = "tree"
                  /\ ~ occurs_in "/" n
                  /\ (forall kw, k = Some kw -> occurs_in kw n))
  /\ Forall (fun r => URL r = GH_URL +:+ "/" +:+ REPO +:+ "/tree/" +:+ sha g
                              +:+ "/" +:+ Name r) rs.
Proof.
  intros Hrun.
  pose proof (get_projects_names _ _ _ _ _ _ Hrun) as Hnames.
  pose proof (get_projects_first_candidate _ _ _ _ _ _ Hrun) as Hdoc.
  split; [rewrite Hnames; apply project_list_sublist|]. split.
  - intros n. rewrite Hnames, in_map_iff. split.
    + intros (x & <- & Hx). apply project_list_In in Hx. exists x. tauto.
    + intros (x & H1 & <- & H2 & H3 & H4). exists x. split; [reflexivity|].
      apply project_list_In. auto.
  - clear Hrun Hnames. induction Hdoc as [|d r ds rs' (Hn & Hu & _) _ IH];
      constructor; [|exact IH].
    rewrite Hu, Hn. reflexivity.
Qed.

Lemma get_projects_lists_top_level_dirs_witness :
  sublist
    (map Name
       [{| Name := "elections"; Description := "# Elections";
           URL := "https://www.github.com/fivethirtyeight/data/tree/abc123/elections" |}])
    (map Node.path (tree elections))
  /\ (forall n,
        In n (map Name
                [{| Name := "elections"; Description := "# Elections";
                    URL := "https://www.github.com/fivethirtyeight/data/tree/abc123/elections" |}]) <->
        exists x, In x (tree elections) /\ Node.path x = n
                  /\ Node.type x = "tree" /\ ~ occurs_in "/" n
                  /\ (forall kw, Some "lect" = Some kw -> occurs_in kw n))
  /\ Forall (fun r => URL r = GH_URL +:+ "/" +:+ REPO +:+ "/tree/"
                              +:+ sha elections +:+ "/" +:+ Name r)
       [{| Name := "elections"; Description := "# Elections";
           URL := "https://www.github.com/fivethirtyeight/data/tree/abc123/elections" |}].
Proof.
  apply (get_projects_lists_top_level_dirs (Some "lect") elections true
           (world_of elections_upstream)
           (add_requests (world_of elections_upstream)
              ["https://raw.githubusercontent.com/fivethirtyeight/data/abc123/elections/README.md"])).
  vm_compute. reflexivity.
Defined.

Lemma readme_candidates_In (g : GitTree) (d x : Node.t) :
  In x (readme_candidates g d) ->
  is_readme g x
  /\ exists rest, Node.path x = Node.path d +:+ rest.
Proof.
  unfold readme_candidates, is_readme.
  rewrite filter_In, !andb_true_iff, String.eqb_eq, startswith_spec,
    endswith_spec.
  tauto.
Qed.

Lemma collect_plan_urls (up : string -> exn + Response) (g : GitTree)
    (ds : list Node.t) :
  forall recs,
    Forall (fun u => exists x, is_readme g x /\ u = readme_url g x)
           (snd (collect_plan up g ds recs))
    /\ (length (snd (collect_plan up g ds recs)) <= length ds)%nat
    /\ (forall rs, fst (collect_plan up g ds recs) = inr rs ->
                   length (snd (collect_plan up g ds recs)) = length ds
                   /\ length rs = (length recs + length ds)%nat).
Proof.
  induction ds as [|d ds IH]; intros recs.
  - cbn. split; [constructor|]. split; [lia|].
    intros rs [= <-]. lia.
  - cbn [collect_plan].
    destruct (readme_candidates g d) as [|r0 others] eqn:Hc.
    { cbn. split; [constructor|]. split; [lia|]. discriminate. }
    assert (Hr0 : exists x, is_readme g x /\ readme_url g r0 = readme_url g x).
    { exists r0. split; [|reflexivity].
      apply (readme_candidates_In g d). rewrite Hc. left. reflexivity. }
    destruct (up (readme_url g r0)) as [e|response].
    { cbn. split; [repeat constructor; exact Hr0|]. split; [lia|discriminate]. }
    destruct (status_error response).
    { cbn. split; [repeat constructor; exact Hr0|]. split; [lia|discriminate]. }
    cbv zeta. cbn [fst snd length].
    destruct (IH (recs ++ [record_of g d (text response)])) as (H1 & H2 & H3).
    split; [constructor; assumption|]. split; [lia|].
    intros rs Hrs. destruct (H3 rs Hrs) as [H4 H5].
    rewrite length_app in H5. simpl in H5. lia.
Qed.

(** X4: with a snapshot given, [get_projects] changes neither the
    upstream nor the object store, and requests documentation files only:
    every url it requests is the raw url, at the commit of the snapshot,
    of a blob whose lowercased path ends in "readme.md"; there is at most
    one request per listed project, and exactly one per record when it
    returns. *)
Theorem get_projects_requests_readmes_only (k : option string) (g : GitTree)
    (render : bool) (w : World) :
  exists urls,
    snd (get_projects k (Some g) render w) = add_requests w urls
    /\ Forall (fun u => exists x, is_readme g x /\ u = readme_url g x) urls
    /\ (length urls <= length (project_list k g))%nat
    /\ (forall rs, fst (get_projects k (Some g) render w) = inr rs ->
                   length urls = length rs).
Proof.
  rewrite get_projects_run. cbn [fst snd].
  destruct (collect_plan_urls (upstream w) g (project_list k g) [])
    as (H1 & H2 & H3).
  eexists. split; [reflexivity|]. split; [exact H1|]. split; [exact H2|].
  intros rs Hrs. destruct (H3 rs Hrs) as [H4 H5]. simpl in H5. lia.
Qed.

Lemma collect_plan_stops (up : string -> exn + Response) (g : GitTree)
    (pre post : list Node.t) (d r0 : Node.t) (others : list Node.t) (e : exn) :
  (forall d', In d' pre -> exists r, documents up g d' r) ->
  readme_candidates g d = r0 :: others ->
  (up (readme_url g r0) = inl e
   \/ exists response, up (readme_url g r0) = inr response
                       /\ status_error response = Some e) ->
  forall recs,
  exists urls,
    collect_plan up g (pre ++ d :: post) recs
    = (inl e, urls ++ [readme_url g r0])
    /\ length urls = length pre.
Proof.
  intros Hpre Hc He. induction pre as [|d0 pre IH]; intros recs.
  - exists []. split; [|reflexivity]. cbn [app collect_plan]. rewrite Hc.
    destruct He as [->|(response & -> & ->)]; reflexivity.
  - destruct (Hpre d0 (or_introl eq_refl))
      as (r & _ & _ & r1 & o1 & resp & Hc1 & Hu1 & Hs1 & _).
    destruct (IH (fun d' H => Hpre d' (or_intror H))
                 (recs ++ [record_of g d0 (text resp)])) as (urls & Hrun & Hlen).
    exists (readme_url g r1 :: urls). split; [|simpl; lia].
    cbn [app collect_plan]. rewrite Hc1, Hu1, Hs1. cbv zeta.
    rewrite Hrun. reflexivity.
Qed.

(** X5: a documentation fetch that fails aborts the listing: when the
    projects before [d] are documented and the fetch for [d] fails with
    [e], be it in the request or in its status, [get_projects] raises [e]
    after one request per project up to [d], the last one for the
    documentation of [d]; the projects after [d] are not requested. *)
Theorem get_projects_stops_at_failed_fetch (k : option string) (g : GitTree)
    (render : bool) (w : World) (pre post : list Node.t) (d r0 : Node.t)
    (others : list Node.t) (e : exn) :
  project_list k g = pre ++ d :: post ->
  (forall d', In d' pre -> exists r, documents (upstream w) g d' r) ->
  readme_candidates g d = r0 :: others ->
  (upstream w (readme_url g r0) = inl e
   \/ exists response, upstream w (readme_url g r0) = inr response
                       /\ status_error response = Some e) ->
  exists urls,
    get_projects k (Some g) render w
    = (inl e, add_requests w (urls ++ [readme_url g r0]))
    /\ length urls = length pre.
Proof.
  intros Hl Hpre Hc He. rewrite get_projects_run, Hl.
  destruct (collect_plan_stops _ g pre post d r0 others e Hpre Hc He [])
    as (urls & -> & Hlen).
  exists urls. split; [reflexivity | exact Hlen].
Qed.

Lemma get_projects_stops_at_failed_fetch_witness :
  exists urls,
    get_projects None (Some three_projects) true (world_of first_only)
    = (inl (HTTPError (readme_url three_projects (blob "b/README.md"))),
       add_requests (world_of first_only)
         (urls ++ [readme_url three_projects (blob "b/README.md")]))
    /\ length urls = length [dir "a"].
Proof.
  apply (get_projects_stops_at_failed_fetch None three_projects true
           (world_of first_only) [dir "a"] [dir "c"] (dir "b")
           (blob "b/README.md") []).
  - reflexivity.
  - intros d' [<-|[]].
    exists (record_of three_projects (dir "a") "# A").
    split; [reflexivity|]. split; [reflexivity|].
    eexists (blob "a/README.md"), [], _.
    split; [reflexivity|]. split; [vm_compute; reflexivity|].
    split; reflexivity.
  - reflexivity.
  - right. eexists. split; [vm_compute; reflexivity | reflexivity].
Defined.

(** ** The project sub-catalog, continued *)

Lemma with_heap_with_heap (w : World) (h h' : list SubCatalogObj) :
  with_heap (with_heap w h) h' = with_heap w h'.
Proof. reflexivity. Qed.

Lemma set_tree_run (self : nat) (o : SubCatalogObj) (j : Json) (w : World) :
  heap w !! self = Some o ->
  Five38SubCatalog.set_tree self j w
  = (inr tt, with_heap w (<[self := with_json o j]> (heap w))).
Proof.
  intros H. unfold Five38SubCatalog.set_tree, bind, deref. rewrite H.
  reflexivity.
Qed.

(** The last of the three GETs, whose decoded body is the result. *)
Lemma get_json_last_run (url : string) (w : World) :
  bind (requests_get url)
    (fun response =>
       bind (raise_for_status response) (fun _ => lift (json response))) w
  = (answer (upstream w) url, add_requests w [url]).
Proof.
  unfold bind at 1, requests_get, answer. fold (add_requests w [url]).
  destruct (upstream w url) as [e|response]; [reflexivity|].
  unfold bind, raise_for_status.
  destruct (status_error response); [reflexivity|].
  unfold ret, lift. destruct (json response); reflexivity.
Qed.

(** The three calls of [_load], as a function of the upstream alone. *)
Lemma fetch_json_run (w : World) :
  fetch_json w = (fst (fetch_json_plan (upstream w)),
                  add_requests w (snd (fetch_json_plan (upstream w)))).
Proof.
  unfold fetch_json, fetch_json_plan.
  fold repo_url. rewrite get_json_run.
  destruct (answer (upstream w) repo_url) as [e|j]; [reflexivity|].
  destruct j as [b| | | |]; try reflexivity.
  rewrite bind_ret_run. fold (branch_url b). rewrite get_json_run.
  change (upstream (add_requests w [repo_url])) with (upstream w).
  destruct (answer (upstream w) (branch_url b)) as [e|j];
    [rewrite add_requests_app; reflexivity|].
  destruct j as [|s| | |]; try (cbn; rewrite add_requests_app; reflexivity).
  rewrite bind_ret_run. fold (tree_url s). rewrite get_json_last_run.
  change (upstream (add_requests (add_requests w [repo_url]) [branch_url b]))
    with (upstream w).
  rewrite !add_requests_app. reflexivity.
Qed.

(** The tree fetch is the three calls followed by the reading of the
    tree. *)
Lemma fetch_plan_of_json (up : string -> exn + Response) :
  fetch_plan up
  = match fetch_json_plan up with
    | (inl e, urls) => (inl e, urls)
    | (inr (JTree t), urls) => (inr t, urls)
    | (inr _, urls) => (inl (KeyError "sha"), urls)
    end.
Proof.
  unfold fetch_plan, fetch_json_plan.
  destruct (answer up repo_url) as [e|[b| | | |]]; try reflexivity.
  destruct (answer up (branch_url b)) as [e|[|s| | |]]; reflexivity.
Qed.

Lemma fetch_tree_json (w w1 : World) (g : GitTree) :
  fetch_tree w = (inr g, w1) <-> fetch_json w = (inr (JTree g), w1).
Proof.
  rewrite fetch_tree_run, fetch_json_run, fetch_plan_of_json.
  destruct (fetch_json_plan (upstream w)) as [[e|[| |t| |]] urls];
    cbn [fst snd]; split; intros H; try discriminate;
    injection H as <- <-; reflexivity.
Qed.

(** [_load] on a sub-catalog without snapshot, by the outcome of the three
    calls. *)
Lemma _load_fetch_run (self : nat) (o : SubCatalogObj) (w : World) :
  heap w !! self = Some o -> _tree o = None ->
  Five38SubCatalog._load self w
  = match fetch_json_plan (upstream w) with
    | (inl e, urls) =>
        (inl e,
         add_requests (with_heap w (<[self := with_entries o ∅]> (heap w))) urls)
    | (inr (JTree g), urls) =>
        (inr tt,
         add_requests
           (with_heap w
              (<[self := with_entries (with_tree o g) (loaded_entries self o g)]>
                 (heap w)))
           urls)
    | (inr j, urls) =>
        (inl (KeyError "sha"),
         add_requests
           (with_heap w (<[self := with_json (with_entries o ∅) j]> (heap w)))
           urls)
    end.
Proof.
  intros Ho Hg. unfold Five38SubCatalog._load.
  assert (Hlt : (self < length (heap w))%nat) by (eapply lookup_lt_Some, Ho).
  rewrite (bind_run_inr _ _ _ _ _ (set_entries_run _ _ ∅ _ Ho)).
  set (o1 := with_entries o ∅).
  set (w1 := with_heap w (<[self := o1]> (heap w))).
  assert (Ho1 : heap w1 !! self = Some o1)
    by (simpl; apply list_lookup_insert_eq; exact Hlt).
  rewrite (bind_run_inr _ _ _ _ _ (deref_run _ _ _ Ho1)).
  change (_tree o1) with (_tree o). rewrite Hg.
  unfold bind at 1. unfold bind at 1. rewrite fetch_json_run.
  change (upstream w1) with (upstream w).
  destruct (fetch_json_plan (upstream w)) as [[e|j] urls]; cbn [fst snd];
    [reflexivity|].
  set (w2 := add_requests w1 urls).
  assert (Ho2 : heap w2 !! self = Some o1) by exact Ho1.
  rewrite (set_tree_run _ _ j _ Ho2).
  set (o3 := with_json o1 j).
  set (w3 := with_heap w2 (<[self := o3]> (heap w2))).
  assert (Ho3 : heap w3 !! self = Some o3).
  { simpl. apply list_lookup_insert_eq. rewrite length_insert. exact Hlt. }
  rewrite (bind_run_inr _ _ _ _ _ (deref_run _ _ _ Ho3)).
  assert (Hw3 : w3 = add_requests
                       (with_heap w (<[self := with_json o1 j]> (heap w))) urls).
  { unfold w3, o3, w2, w1, with_heap, add_requests. simpl.
    rewrite list_insert_insert_eq. reflexivity. }
  destruct j as [b|s|g| |]; try (cbn; rewrite Hw3; reflexivity).
  change (_tree o3) with (Some (JTree g)). cbv iota. rewrite bind_ret_run.
  rewrite (register_run _ _ _ o3 w3 Ho3).
  unfold w3, o3, w2, w1, o1, with_heap, with_entries, with_tree, with_json,
    add_requests, loaded_entries.
  simpl. rewrite !list_insert_insert_eq. reflexivity.
Qed.

(** [_load] on a sub-catalog whose [_tree] holds a value without ["sha"]. *)
Lemma _load_shaless_run (self : nat) (o : SubCatalogObj) (j : Json)
    (w : World) :
  heap w !! self = Some o -> _tree o = Some j -> shaless j ->
  Five38SubCatalog._load self w
  = (inl (KeyError "sha"),
     with_heap w (<[self := with_entries o ∅]> (heap w))).
Proof.
  intros Ho Hj Hsha. unfold Five38SubCatalog._load.
  assert (Hlt : (self < length (heap w))%nat) by (eapply lookup_lt_Some, Ho).
  rewrite (bind_run_inr _ _ _ _ _ (set_entries_run _ _ ∅ _ Ho)).
  set (o1 := with_entries o ∅).
  set (w1 := with_heap w (<[self := o1]> (heap w))).
  assert (Ho1 : heap w1 !! self = Some o1)
    by (simpl; apply list_lookup_insert_eq; exact Hlt).
  rewrite (bind_run_inr _ _ _ _ _ (deref_run _ _ _ Ho1)).
  change (_tree o1) with (_tree o). rewrite Hj. rewrite bind_ret_run.
  rewrite (bind_run_inr _ _ _ _ _ (deref_run _ _ _ Ho1)).
  change (_tree o1) with (_tree o). rewrite Hj.
  destruct j as [b|s|g| |]; try reflexivity.
  exfalso. exact (Hsha g eq_refl).
Qed.

(** X6: loading a sub-catalog that holds a snapshot is idempotent: the
    first load drops whatever entries the object held and registers the
    data files; a second load leaves the world as the first left it. *)
Theorem _load_idempotent (self : nat) (o : SubCatalogObj) (g : GitTree)
    (w : World) :
  heap w !! self = Some o -> _tree o = Some (JTree g) ->
  exists w1,
    Five38SubCatalog._load self w = (inr tt, w1)
    /\ heap w1 !! self = Some (with_entries o (loaded_entries self o g))
    /\ Five38SubCatalog._load self w1 = (inr tt, w1).
Proof.
  intros Ho Hg.
  assert (Hlt : (self < length (heap w))%nat) by (eapply lookup_lt_Some, Ho).
  exists (with_heap w
            (<[self := with_entries o (loaded_entries self o g)]> (heap w))).
  split; [exact (_load_run self o g w Ho Hg)|].
  assert (Ho1 : heap (with_heap w
                        (<[self := with_entries o (loaded_entries self o g)]>
                           (heap w))) !! self
                = Some (with_entries o (loaded_entries self o g)))
    by (simpl; apply list_lookup_insert_eq; exact Hlt).
  split; [exact Ho1|].
  rewrite (_load_run self _ g _ Ho1 Hg).
  unfold with_heap, with_entries, loaded_entries. simpl.
  rewrite list_insert_insert_eq. reflexivity.
Qed.

Lemma _load_idempotent_witness :
  exists w1,
    Five38SubCatalog._load 0 (offline (sub_catalog nba "nba")) = (inr tt, w1)
    /\ heap w1 !! 0%nat
       = Some (with_entries (sub_catalog nba "nba")
                 (loaded_entries 0 (sub_catalog nba "nba") nba))
    /\ Five38SubCatalog._load 0 w1 = (inr tt, w1).
Proof.
  apply (_load_idempotent 0 (sub_catalog nba "nba") nba
           (offline (sub_catalog nba "nba"))); reflexivity.
Defined.

(** X7: a sub-catalog without snapshot fetches one when it is loaded: when
    the three calls go through, the tree they return is kept in [_tree],
    the data files of that tree are registered, and the requests are these
    three calls; a later load makes no request. *)
Theorem _load_fetches_missing_snapshot (self : nat) (o : SubCatalogObj)
    (g : GitTree) (w w1 : World) :
  heap w !! self = Some o -> _tree o = None ->
  fetch_tree w = (inr g, w1) ->
  exists w2 w3,
    Five38SubCatalog._load self w = (inr tt, w2)
    /\ requests w2 = requests w1
    /\ heap w2 !! self
       = Some (with_entries (with_tree o g) (loaded_entries self o g))
    /\ Five38SubCatalog._load self w2 = (inr tt, w3)
    /\ requests w3 = requests w2.
Proof.
  intros Ho Hg Hfetch.
  assert (Hlt : (self < length (heap w))%nat) by (eapply lookup_lt_Some, Ho).
  apply fetch_tree_json in Hfetch. rewrite fetch_json_run in Hfetch.
  rewrite (_load_fetch_run self o w Ho Hg).
  destruct (fetch_json_plan (upstream w)) as [[e|j] urls];
    cbn [fst snd] in Hfetch; [discriminate|].
  injection Hfetch as -> <-.
  eexists _, _. split; [reflexivity|]. split; [reflexivity|].
  assert (Ho2 : heap (add_requests
                        (with_heap w
                           (<[self := with_entries (with_tree o g)
                                        (loaded_entries self o g)]> (heap w)))
                        urls) !! self
                = Some (with_entries (with_tree o g) (loaded_entries self o g)))
    by (simpl; apply list_lookup_insert_eq; exact Hlt).
  split; [exact Ho2|].
  split; [apply (_load_run self _ g _ Ho2); reflexivity | reflexivity].
Qed.

Lemma _load_fetches_missing_snapshot_witness :
  exists w2 w3,
    Five38SubCatalog._load 0
      {| upstream := elections_github; requests := []; heap := [stale] |}
    = (inr tt, w2)
    /\ requests w2
       = requests
           (add_requests
              {| upstream := elections_github; requests := [];
                 heap := [stale] |}
              [repo_url; branch_url "master"; tree_url "abc123"])
    /\ heap w2 !! 0%nat
       = Some (with_entries (with_tree stale elections)
                 (loaded_entries 0 stale elections))
    /\ Five38SubCatalog._load 0 w2 = (inr tt, w3)
    /\ requests w3 = requests w2.
Proof.
  apply (_load_fetches_missing_snapshot 0 stale elections
           {| upstream := elections_github; requests := []; heap := [stale] |}).
  - reflexivity.
  - reflexivity.
  - vm_compute. reflexivity.
Defined.

(** X8: a load of a sub-catalog without snapshot that fails leaves the
    object without entries, whatever it held before, and changes no other
    object. Either one of the three calls failed: its error is the one
    raised and the object still has no snapshot. Or the three calls went
    through and the answer of the third is no tree: the error is the
    missing key "sha", the answer is kept in [_tree] all the same, and
    unless it is the empty object every later load fails with that error
    again and requests nothing. *)
Theorem _load_failure_drops_entries (self : nat) (o : SubCatalogObj)
    (e : exn) (w w' : World) :
  heap w !! self = Some o -> _tree o = None ->
  Five38SubCatalog._load self w = (inl e, w') ->
  exists o',
    heap w' !! self = Some o'
    /\ _entries o' = ∅
    /\ sc_name o' = sc_name o
    /\ (forall r, r <> self -> heap w' !! r = heap w !! r)
    /\ ((exists w1,
           fetch_json w = (inl e, w1)
           /\ requests w' = requests w1
           /\ _tree o' = None)
        \/ (exists j w1,
              fetch_json w = (inr j, w1)
              /\ shaless j
              /\ requests w' = requests w1
              /\ e = KeyError "sha"
              /\ _tree o' = Five38SubCatalog.json_attr j
              /\ (j <> JEmpty ->
                  Five38SubCatalog._load self w'
                  = (inl (KeyError "sha"), w')))).
Proof.
  intros Ho Hg Hload.
  assert (Hlt : (self < length (heap w))%nat) by (eapply lookup_lt_Some, Ho).
  rewrite (_load_fetch_run self o w Ho Hg) in Hload.
  rewrite fetch_json_run.
  destruct (fetch_json_plan (upstream w)) as [[e'|j] urls]; cbn [fst snd].
  - injection Hload as <- <-. exists (with_entries o ∅).
    split; [simpl; apply list_lookup_insert_eq; exact Hlt|].
    split; [reflexivity|]. split; [reflexivity|].
    split; [intros r Hr; simpl; apply list_lookup_insert_ne; congruence|].
    left. eexists. split; [reflexivity|]. split; [reflexivity | exact Hg].
  - assert (Hcase : (exists g, j = JTree g) \/ shaless j).
    { destruct j as [b|s|g| |]; [right|right|left; eauto|right|right];
        intros g' Hg'; discriminate. }
    destruct Hcase as [[g ->]|Hsha]; [discriminate|].
    assert (Hrun : ((inl (KeyError "sha") : exn + unit),
                    add_requests
                      (with_heap w
                         (<[self := with_json (with_entries o ∅) j]> (heap w)))
                      urls)
                   = (inl e, w')).
    { destruct j as [b|s|g| |]; try exact Hload.
      exfalso. exact (Hsha g eq_refl). }
    injection Hrun as <- <-. exists (with_json (with_entries o ∅) j).
    assert (Ho' : heap (add_requests
                          (with_heap w
                             (<[self := with_json (with_entries o ∅) j]>
                                (heap w))) urls) !! self
                  = Some (with_json (with_entries o ∅) j))
      by (simpl; apply list_lookup_insert_eq; exact Hlt).
    split; [exact Ho'|]. split; [reflexivity|]. split; [reflexivity|].
    split; [intros r Hr; simpl; apply list_lookup_insert_ne; congruence|].
    right. exists j. eexists. split; [reflexivity|]. split; [exact Hsha|].
    split; [reflexivity|]. split; [reflexivity|]. split; [reflexivity|].
    intros Hne.
    rewrite (_load_shaless_run self _ j _ Ho'); [| |exact Hsha].
    + f_equal. unfold with_heap, add_requests, with_entries, with_json.
      simpl. rewrite list_insert_insert_eq. reflexivity.
    + destruct j; try reflexivity. congruence.
Qed.

Lemma _load_failure_drops_entries_witness :
  exists o',
    heap (add_requests
            (with_heap
               {| upstream := rate_limited; requests := []; heap := [stale] |}
               [with_json (with_entries stale ∅) JOther])
            [repo_url; branch_url "master"; tree_url "abc123"]) !! 0%nat
    = Some o'
    /\ _entries o' = ∅
    /\ sc_name o' = sc_name stale
    /\ (forall r, r <> 0%nat ->
          heap (add_requests
                  (with_heap
                     {| upstream := rate_limited; requests := [];
                        heap := [stale] |}
                     [with_json (with_entries stale ∅) JOther])
                  [repo_url; branch_url "master"; tree_url "abc123"]) !! r
          = heap {| upstream := rate_limited; requests := [];
                    heap := [stale] |} !! r)
    /\ ((exists w1,
           fetch_json {| upstream := rate_limited; requests := [];
                         heap := [stale] |}
           = (inl (KeyError "sha"), w1)
           /\ requests
                (add_requests
                   (with_heap
                      {| upstream := rate_limited; requests := [];
                         heap := [stale] |}
                      [with_json (with_entries stale ∅) JOther])
                   [repo_url; branch_url "master"; tree_url "abc123"])
              = requests w1
           /\ _tree o' = None)
        \/ (exists j w1,
              fetch_json {| upstream := rate_limited; requests := [];
                            heap := [stale] |}
              = (inr j, w1)
              /\ shaless j
              /\ requests
                   (add_requests
                      (with_heap
                         {| upstream := rate_limited; requests := [];
                            heap := [stale] |}
                         [with_json (with_entries stale ∅) JOther])
                      [repo_url; branch_url "master"; tree_url "abc123"])
                 = requests w1
              /\ KeyError "sha" = KeyError "sha"
              /\ _tree o' = Five38SubCatalog.json_attr j
              /\ (j <> JEmpty ->
                  Five38SubCatalog._load 0
                    (add_requests
                       (with_heap
                          {| upstream := rate_limited; requests := [];
                             heap := [stale] |}
                          [with_json (with_entries stale ∅) JOther])
                       [repo_url; branch_url "master"; tree_url "abc123"])
                  = (inl (KeyError "sha"),
                     add_requests
                       (with_heap
                          {| upstream := rate_limited; requests := [];
                             heap := [stale] |}
                          [with_json (with_entries stale ∅) JOther])
                       [repo_url; branch_url "master"; tree_url "abc123"])))).
Proof.
  apply (_load_failure_drops_entries 0 stale (KeyError "sha")
           {| upstream := rate_limited; requests := []; heap := [stale] |}).
  - reflexivity.
  - reflexivity.
  - vm_compute. reflexivity.
Defined.

(** The answer without "sha" is kept: the first load makes the three
    requests, the second none, and both fail alike. *)
Example load_keeps_answer_without_sha :
  forall w1 w2,
    Five38SubCatalog._load 0
      {| upstream := rate_limited; requests := []; heap := [stale] |}
    = (inl (KeyError "sha"), w1) ->
    Five38SubCatalog._load 0 w1 = (inl (KeyError "sha"), w2) ->
    requests w1 = [repo_url; branch_url "master"; tree_url "abc123"]
    /\ w2 = w1
    /\ _tree <$> (heap w1 !! 0%nat) = Some (Some JOther).
Proof.
  intros w1 w2 H1 H2. vm_compute in H1. injection H1 as <-.
  vm_compute in H2. injection H2 as <-. repeat split.
Qed.

(** With a failing first call the object stays without snapshot. *)
Example load_offline_keeps_no_snapshot :
  Five38SubCatalog._load 0 (offline stale)
  = (inl (Exception "ConnectionError" repo_url),
     add_requests (with_heap (offline stale) [with_entries stale ∅])
       [repo_url]).
Proof. vm_compute. reflexivity. Qed.

(** ** Replacing one character by another *)

Lemma replace_char_cons (a b c : ascii) (s : string) :
  PyStr.replace (String c s) (String a "") (String b "")
  = String (if Ascii.eqb a c then b else c)
           (PyStr.replace s (String a "") (String b "")).
Proof.
  unfold PyStr.replace. cbn [PyStr.replace_from PyStr.startswith].
  destruct (Ascii.eqb a c); reflexivity.
Qed.

Lemma replace_char_absent (a b : ascii) (s : string) :
  a <> b ->
  ~ occurs_in (String a "") (PyStr.replace s (String a "") (String b "")).
Proof.
  intros Hab. apply find_neg_iff. induction s as [|c s IH]; [reflexivity|].
  rewrite replace_char_cons, find_unfold. cbn [PyStr.startswith].
  assert (E : Ascii.eqb a (if Ascii.eqb a c then b else c) = false).
  { destruct (Ascii.eqb a c) eqn:Ec; [|exact Ec].
    apply Ascii.eqb_neq. exact Hab. }
  rewrite E. cbv zeta.
  destruct (Z.ltb_spec (PyStr.find (PyStr.replace s (String a "") (String b ""))
                                   (String a "")) 0); lia.
Qed.

Lemma replace_char_length (a b : ascii) (s : string) :
  String.length (PyStr.replace s (String a "") (String b ""))
  = String.length s.
Proof.
  induction s as [|c s IH]; [reflexivity|].
  rewrite replace_char_cons. cbn [String.length]. rewrite IH. reflexivity.
Qed.

Lemma remove_from_length (pat : string) (p : string) :
  forall n,
    (String.length (PyStr.replace_from n p pat "") <= String.length p)%nat.
Proof.
  induction p as [|c p IH]; intros n; [destruct n; cbn; lia|].
  cbn [PyStr.replace_from]. destruct n as [|n].
  - destruct (PyStr.startswith (String c p) pat).
    + cbn [String.length]. specialize (IH (String.length pat - 1)%nat).
      change ("" +:+ PyStr.replace_from (String.length pat - 1) p pat "")
        with (PyStr.replace_from (String.length pat - 1) p pat "").
      lia.
    + cbn [String.length]. specialize (IH 0%nat). lia.
  - specialize (IH n). cbn [String.length]. lia.
Qed.

(** Removing the occurrences of a string makes a string no longer. *)
Lemma remove_length (p old : string) :
  (String.length (PyStr.replace p old "") <= String.length p)%nat.
Proof.
  unfold PyStr.replace. destruct old as [|a old]; [|apply remove_from_length].
  induction p as [|c p IH]; [cbn; lia|].
  cbn [PyStr.intersperse String.length].
  change ("" +:+ String c (PyStr.intersperse p ""))
    with (String c (PyStr.intersperse p "")).
  cbn [String.length]. lia.
Qed.

(** X9: the name of an entry of a loaded sub-catalog holds no hyphen and
    is no longer than the path of its file; an entry is found under its
    own name. *)
Theorem loaded_names_without_hyphen (self : nat) (o : SubCatalogObj)
    (g : GitTree) (w w' : World) (o' : SubCatalogObj) (k : string)
    (e : LocalCatalogEntry.t) :
  heap w !! self = Some o -> _tree o = Some (JTree g) ->
  Five38SubCatalog._load self w = (inr tt, w') ->
  heap w' !! self = Some o' ->
  _entries o' !! k = Some e ->
  ~ occurs_in "-" k
  /\ LocalCatalogEntry.name e = k
  /\ exists x, In x (Five38SubCatalog.output_list (sc_name o) g)
               /\ k = Five38SubCatalog.dataset_name (sc_name o) x
               /\ (String.length k <= String.length (Node.path x))%nat.
Proof.
  intros Ho Hg Hrun Ho' Hk.
  assert (Hlt : (self < length (heap w))%nat) by (eapply lookup_lt_Some, Ho).
  rewrite (_load_run self o g w Ho Hg) in Hrun. injection Hrun as <-.
  simpl in Ho'. rewrite list_lookup_insert_eq in Ho' by exact Hlt.
  injection Ho' as <-. cbn [_entries with_entries] in Hk.
  unfold registered in Hk. apply put_all_lookup_Some in Hk
    as [(pre & x & post & Hl & Hkx & _ & ->)|[_ Hk]];
    [|rewrite lookup_empty in Hk; discriminate].
  subst k. split; [apply (replace_char_absent "-" "_"); discriminate|].
  split; [reflexivity|]. exists x. split.
  - rewrite Hl. apply in_or_app. right. left. reflexivity.
  - split; [reflexivity|]. unfold Five38SubCatalog.dataset_name.
    rewrite (replace_char_length "-" "_"). apply remove_length.
Qed.

Lemma loaded_names_without_hyphen_witness :
  ~ occurs_in "-" "data_set.csv"
  /\ LocalCatalogEntry.name
       (LocalCatalogEntry.mk "data_set.csv" "data file for abc" "csv" 0%nat
          "https://raw.githubusercontent.com/fivethirtyeight/data/abc123/abc/data-set.csv")
     = "data_set.csv"
  /\ exists x,
       In x (Five38SubCatalog.output_list
               (sc_name (sub_catalog one_file "abc")) one_file)
       /\ "data_set.csv"
          = Five38SubCatalog.dataset_name
              (sc_name (sub_catalog one_file "abc")) x
       /\ (String.length "data_set.csv" <= String.length (Node.path x))%nat.
Proof.
  apply (loaded_names_without_hyphen 0 (sub_catalog one_file "abc") one_file
           (offline (sub_catalog one_file "abc"))
           (with_heap (offline (sub_catalog one_file "abc"))
              [with_entries (sub_catalog one_file "abc")
                 (loaded_entries 0 (sub_catalog one_file "abc") one_file)])
           (with_entries (sub_catalog one_file "abc")
              (loaded_entries 0 (sub_catalog one_file "abc") one_file)));
    vm_compute; reflexivity.
Defined.

Lemma output_list_nil (self_name : string) (g : GitTree) :
  (forall x, In x (tree g) ->
             ~ exists rest, Node.path x = (self_name +:+ "/") +:+ rest) ->
  Five38SubCatalog.output_list self_name g = [].
Proof.
  intros H. apply filter_nil_false. intros x Hx.
  destruct (PyStr.startswith (Node.path x) (self_name +:+ "/")) eqn:E.
  - exfalso. apply (H x Hx). apply startswith_spec. exact E.
  - rewrite andb_false_r. reflexivity.
Qed.

(** X10: the sub-catalog that [search] returns has no snapshot, so that
    loading it fetches the tree with the three calls. The prefix of its
    files is made from the name the constructor of the base class left it
    with, [unnamed], and not from the text searched for nor from the
    receiver: its entries are those of the files under that prefix, and
    it has none when the tree has no path under it. The receiver keeps
    its state. *)
Theorem search_then_load (unnamed : string) (self : nat)
    (text : option string) (o : SubCatalogObj) (g : GitTree) (w w1 : World) :
  heap w !! self = Some o ->
  fetch_tree w = (inr g, w1) ->
  exists found ws wl ol,
    Five38SubCatalog.search unnamed self text w = (inr found, ws)
    /\ Five38SubCatalog._load found ws = (inr tt, wl)
    /\ requests wl = requests w1
    /\ heap wl !! self = Some o
    /\ heap wl !! found = Some ol
    /\ _tree ol = Some (JTree g)
    /\ _entries ol = loaded_entries found (unscoped unnamed) g
    /\ ((forall x, In x (tree g) ->
                   ~ exists rest,
                       Node.path x = (unnamed +:+ "/") +:+ rest) ->
        _entries ol = ∅).
Proof.
  intros Ho Hfetch.
  assert (Hlt : (self < length (heap w))%nat) by (eapply lookup_lt_Some, Ho).
  set (found := length (heap w)).
  set (ws := with_heap w (heap w ++ [unscoped unnamed])).
  assert (Hf : heap ws !! found = Some (unscoped unnamed))
    by (simpl; apply list_lookup_middle; reflexivity).
  apply fetch_tree_json in Hfetch. rewrite fetch_json_run in Hfetch.
  pose proof (_load_fetch_run found (unscoped unnamed) ws Hf eq_refl) as Hload.
  change (upstream ws) with (upstream w) in Hload.
  destruct (fetch_json_plan (upstream w)) as [[e|j] urls];
    cbn [fst snd] in Hfetch; [discriminate|].
  injection Hfetch as -> <-.
  eexists found, ws, _, _. split; [reflexivity|]. split; [exact Hload|].
  split; [reflexivity|].
  split.
  { simpl. rewrite list_lookup_insert_ne by (unfold found; lia).
    apply lookup_app_l_Some. exact Ho. }
  split.
  { simpl. apply list_lookup_insert_eq. rewrite length_app. simpl.
    unfold found. lia. }
  split; [reflexivity|].
  split; [reflexivity|].
  intros Hnone. cbn [_entries with_entries]. unfold loaded_entries.
  cbn [sc_name unscoped].
  rewrite output_list_nil; [reflexivity|]. exact Hnone.
Qed.

Lemma search_then_load_witness :
  exists found ws wl ol,
    Five38SubCatalog.search "None" 0 (Some "results")
      {| upstream := elections_github; requests := [];
         heap := [sub_catalog elections "elections"] |}
    = (inr found, ws)
    /\ Five38SubCatalog._load found ws = (inr tt, wl)
    /\ requests wl
       = requests
           (add_requests
              {| upstream := elections_github; requests := [];
                 heap := [sub_catalog elections "elections"] |}
              [repo_url; branch_url "master"; tree_url "abc123"])
    /\ heap wl !! 0%nat = Some (sub_catalog elections "elections")
    /\ heap wl !! found = Some ol
    /\ _tree ol = Some (JTree elections)
    /\ _entries ol = loaded_entries found (unscoped "None") elections
    /\ ((forall x, In x (tree elections) ->
                   ~ exists rest,
                       Node.path x = ("None" +:+ "/") +:+ rest) ->
        _entries ol = ∅).
Proof.
  apply (search_then_load "None" 0 (Some "results")
           (sub_catalog elections "elections") elections
           {| upstream := elections_github; requests := [];
              heap := [sub_catalog elections "elections"] |}).
  - reflexivity.
  - vm_compute. reflexivity.
Defined.

(** ** The root catalog *)

Lemma handles_lookup_Some (rs : list ProjectRecord) :
  forall (base : nat) (m : gmap string nat) (k : string) (ref : nat),
    handles base rs m !! k = Some ref <->
    (exists pre r post,
        rs = pre ++ r :: post /\ handle_key r = k
        /\ (forall y, In y post -> handle_key y <> k)
        /\ ref = (base + length pre)%nat)
    \/ ((forall y, In y rs -> handle_key y <> k) /\ m !! k = Some ref).
Proof.
  induction rs as [|a rs IH]; intros base m k ref.
  - split.
    + intros H. right. split; [intros y []|exact H].
    + intros [(pre & x & post & Hl & _)|[_ H]]; [|exact H].
      destruct pre; discriminate.
  - cbn [handles]. rewrite IH. split.
    + intros [(pre & x & post & -> & Hk & Hpost & ->)|[Hl Hm]].
      * left. exists (a :: pre), x, post. repeat split; try assumption.
        simpl. lia.
      * destruct (decide (handle_key a = k)) as [Ha|Ha].
        -- rewrite Ha, lookup_insert_eq in Hm. injection Hm as <-.
           left. exists [], a, rs. repeat split; try assumption. simpl. lia.
        -- rewrite lookup_insert_ne in Hm by exact Ha.
           right. split; [|exact Hm]. intros y [<-|Hy]; auto.
    + intros [(pre & x & post & Hl & Hk & Hpost & ->)|[Hl Hm]].
      * destruct pre as [|a' pre]; simpl in Hl; injection Hl as -> ->.
        -- right. split; [exact Hpost|]. rewrite <- Hk.
           rewrite lookup_insert_eq. f_equal. simpl. lia.
        -- left. exists pre, x, post. repeat split; try assumption.
           simpl. lia.
      * right. split; [intros y Hy; apply Hl; right; exact Hy|].
        rewrite lookup_insert_ne; [exact Hm|]. apply Hl. left. reflexivity.
Qed.

Lemma handles_keeps (rs : list ProjectRecord) :
  forall (base : nat) (m : gmap string nat) (k : string),
    is_Some (m !! k) -> is_Some (handles base rs m !! k).
Proof.
  induction rs as [|a rs IH]; intros base m k Hk; [exact Hk|].
  cbn [handles]. apply IH.
  destruct (decide (handle_key a = k)) as [<-|Ha].
  - rewrite lookup_insert_eq. eauto.
  - rewrite lookup_insert_ne by exact Ha. exact Hk.
Qed.

Lemma handles_lookup_In (rs : list ProjectRecord) :
  forall (base : nat) (m : gmap string nat) (r : ProjectRecord),
    In r rs -> is_Some (handles base rs m !! handle_key r).
Proof.
  induction rs as [|a rs IH]; intros base m r Hr; [destruct Hr|].
  cbn [handles]. destruct Hr as [->|Hr]; [|apply IH; exact Hr].
  apply handles_keeps. rewrite lookup_insert_eq. eauto.
Qed.

Lemma handles_size (rs : list ProjectRecord) :
  forall (base : nat) (m : gmap string nat),
    NoDup (map handle_key rs) ->
    (forall y, In y rs -> m !! handle_key y = None) ->
    size (handles base rs m) = (size m + length rs)%nat.
Proof.
  induction rs as [|a rs IH]; intros base m Hnd Hfresh.
  - simpl. lia.
  - cbn [handles]. simpl in Hnd. apply NoDup_cons in Hnd as [Ha Hnd].
    rewrite IH; [| exact Hnd |].
    + rewrite map_size_insert_None by (apply Hfresh; left; reflexivity).
      simpl. lia.
    + intros y Hy. rewrite lookup_insert_ne; [apply Hfresh; right; exact Hy|].
      intros Heq. apply Ha. rewrite Heq. apply list_elem_of_In.
      apply in_map. exact Hy.
Qed.

(** The loop of the root catalog never fails: it allocates one sub-catalog
    per record, in order, and files them under the keys of the records. *)
Lemma make_handles_run (g : GitTree) (rs : list ProjectRecord) :
  forall (self : Five38Root.t) (w : World),
    Five38Root.make_handles g rs self w
    = (inr tt,
       Five38Root.set_entries self
         (handles (length (heap w)) rs (Five38Root._entries self)),
       with_heap w (heap w ++ map (handle_of g) rs)).
Proof.
  induction rs as [|r rs IH]; intros self w.
  - cbn. rewrite app_nil_r, with_heap_same. destruct self. reflexivity.
  - cbn [Five38Root.make_handles]. cbn [Five38SubCatalog.new alloc].
    unfold Five38SubCatalog.new, alloc. rewrite IH.
    cbn [heap Five38Root.set_entries Five38Root._entries
         Five38Root._search_string map handles].
    rewrite length_app, <- app_assoc. cbn [length app].
    replace (length (heap w) + 1)%nat with (S (length (heap w))) by lia.
    reflexivity.
Qed.

(** [_load] of the root catalog, by the outcomes of the tree fetch and of
    the indexer. *)
Lemma root_load_run (self : Five38Root.t) (w : World) :
  Five38Root._load self w
  = match fetch_tree w with
    | (inl e, w1) => (inl e, Five38Root.set_entries self ∅, w1)
    | (inr g, w1) =>
        match get_projects (Five38Root._search_string self) (Some g) true w1 with
        | (inl e, w2) => (inl e, Five38Root.set_entries self ∅, w2)
        | (inr rs, w2) =>
            (inr tt,
             Five38Root.set_entries self (handles (length (heap w2)) rs ∅),
             with_heap w2 (heap w2 ++ map (handle_of g) rs))
        end
    end.
Proof.
  unfold Five38Root._load. destruct (fetch_tree w) as [[e|g] w1]; [reflexivity|].
  cbn [Five38Root._search_string Five38Root.set_entries].
  destruct (get_projects (Five38Root._search_string self) (Some g) true w1)
    as [[e|rs] w2]; [reflexivity|].
  rewrite make_handles_run. reflexivity.
Qed.

Lemma get_projects_heap (k : option string) (g : GitTree) (render : bool)
    (w w1 : World) (r : exn + DataFrame) :
  get_projects k (Some g) render w = (r, w1) ->
  heap w1 = heap w /\ upstream w1 = upstream w.
Proof. rewrite get_projects_run. intros [= _ <-]. split; reflexivity. Qed.

(** X11: a load of the root catalog that returns has fetched the tree and
    run the indexer with the query of the catalog; it has made one
    sub-catalog object per record, in order, each with the fetched tree,
    the name and the description of the record and the time-to-live
    99999999999, and no entries yet. Every record has its key, the name
    with hyphens replaced by underscores; every key is without hyphen and
    refers to the sub-catalog of a record with that key; there is one key
    per record when the keys of the records are pairwise distinct. *)
Theorem root_load_entries (self self' : Five38Root.t) (w w' : World) :
  Five38Root._load self w = (inr tt, self', w') ->
  exists g w1 rs w2,
    fetch_tree w = (inr g, w1)
    /\ get_projects (Five38Root._search_string self) (Some g) true w1
       = (inr rs, w2)
    /\ Five38Root._search_string self' = Five38Root._search_string self
    /\ requests w' = requests w2
    /\ heap w' = heap w ++ map (handle_of g) rs
    /\ (forall r, In r rs ->
                  is_Some (Five38Root._entries self' !! handle_key r))
    /\ (forall k ref,
          Five38Root._entries self' !! k = Some ref ->
          ~ occurs_in "-" k
          /\ exists r, In r rs /\ handle_key r = k
                       /\ heap w' !! ref = Some (handle_of g r))
    /\ (NoDup (map handle_key rs) ->
        size (Five38Root._entries self') = length rs).
Proof.
  rewrite root_load_run.
  destruct (fetch_tree w) as [[e|g] w1] eqn:Hf; [discriminate|].
  destruct (get_projects (Five38Root._search_string self) (Some g) true w1)
    as [[e|rs] w2] eqn:Hg; [discriminate|].
  intros [= <- <-].
  destruct (fetch_tree_heap _ _ _ Hf) as [Hh1 _].
  destruct (get_projects_heap _ _ _ _ _ _ Hg) as [Hh2 _].
  assert (Hh : heap w2 = heap w) by congruence.
  exists g, w1, rs, w2.
  split; [first [exact Hf | reflexivity]|].
  split; [first [exact Hg | reflexivity]|].
  split; [reflexivity|]. split; [reflexivity|].
  cbn [heap with_heap Five38Root._entries Five38Root.set_entries].
  rewrite Hh. split; [reflexivity|].
  split; [intros r Hr; apply handles_lookup_In; exact Hr|]. split.
  - intros k ref Hk. apply handles_lookup_Some in Hk
      as [(pre & r & post & -> & Hkey & _ & ->)|[_ Hk]];
      [|rewrite lookup_empty in Hk; discriminate].
    split; [rewrite <- Hkey; apply (replace_char_absent "-" "_"); discriminate|].
    exists r. split; [apply in_or_app; right; left; reflexivity|].
    split; [exact Hkey|].
    rewrite map_app. cbn [map]. rewrite app_assoc.
    apply list_lookup_middle. rewrite length_app, length_map. reflexivity.
  - intros Hnd. rewrite handles_size; [rewrite map_size_empty; lia|exact Hnd|].
    intros y _. apply lookup_empty.
Qed.

Example root_load_elections :
  Five38Root._load (Five38Root.new Five38Root.default_query)
    (world_of elections_github)
  = (inr tt,
     Five38Root.mk (Some "") {[ "elections" := 0%nat ]},
     {| upstream := elections_github;
        requests := [repo_url; branch_url "master"; tree_url "abc123";
                     "https://raw.githubusercontent.com/fivethirtyeight/data/abc123/elections/README.md"];
        heap := [{| _tree := Some (JTree elections); sc_name := "elections";
                    sc_description := Some "# Elections";
                    sc_ttl := Some 99999999999; _entries := ∅ |}] |}).
Proof. vm_compute. reflexivity. Qed.

Lemma root_load_entries_witness :
  exists g w1 rs w2,
    fetch_tree (world_of elections_github) = (inr g, w1)
    /\ get_projects
         (Five38Root._search_string (Five38Root.new Five38Root.default_query))
         (Some g) true w1
       = (inr rs, w2)
    /\ Five38Root._search_string
         (Five38Root.mk (Some "") {[ "elections" := 0%nat ]})
       = Five38Root._search_string (Five38Root.new Five38Root.default_query)
    /\ requests
         (with_heap
            (add_requests (world_of elections_github)
               [repo_url; branch_url "master"; tree_url "abc123";
                readme_url elections (blob "elections/README.md")])
            [handle_of elections
               (record_of elections (dir "elections") "# Elections")])
       = requests w2
    /\ heap
         (with_heap
            (add_requests (world_of elections_github)
               [repo_url; branch_url "master"; tree_url "abc123";
                readme_url elections (blob "elections/README.md")])
            [handle_of elections
               (record_of elections (dir "elections") "# Elections")])
       = heap (world_of elections_github) ++ map (handle_of g) rs
    /\ (forall r, In r rs ->
                  is_Some (Five38Root._entries
                             (Five38Root.mk (Some "") {[ "elections" := 0%nat ]})
                             !! handle_key r))
    /\ (forall k ref,
          Five38Root._entries
            (Five38Root.mk (Some "") {[ "elections" := 0%nat ]}) !! k
          = Some ref ->
          ~ occurs_in "-" k
          /\ exists r, In r rs /\ handle_key r = k
                       /\ heap
                            (with_heap
                               (add_requests (world_of elections_github)
                                  [repo_url; branch_url "master";
                                   tree_url "abc123";
                                   readme_url elections
                                     (blob "elections/README.md")])
                               [handle_of elections
                                  (record_of elections (dir "elections")
                                     "# Elections")]) !! ref
                          = Some (handle_of g r))
    /\ (NoDup (map handle_key rs) ->
        size (Five38Root._entries
                (Five38Root.mk (Some "") {[ "elections" := 0%nat ]}))
        = length rs).
Proof.
  apply (root_load_entries (Five38Root.new Five38Root.default_query)).
  vm_compute. reflexivity.
Defined.

(** X12: a load of the root catalog that fails leaves no partial catalog:
    the error is the one of the tree fetch or of the indexer, as raised;
    the catalog is left without entries and no sub-catalog object has been
    made. *)
Theorem root_load_failure (self self' : Five38Root.t) (w w' : World)
    (e : exn) :
  Five38Root._load self w = (inl e, self', w') ->
  Five38Root._entries self' = ∅
  /\ Five38Root._search_string self' = Five38Root._search_string self
  /\ heap w' = heap w
  /\ (fetch_tree w = (inl e, w')
      \/ exists g w1,
           fetch_tree w = (inr g, w1)
           /\ get_projects (Five38Root._search_string self) (Some g) true w1
              = (inl e, w')).
Proof.
  rewrite root_load_run.
  destruct (fetch_tree w) as [[e1|g] w1] eqn:Hf.
  - intros [= <- <- <-]. destruct (fetch_tree_heap _ _ _ Hf) as [Hh _].
    repeat split; auto.
  - destruct (get_projects (Five38Root._search_string self) (Some g) true w1)
      as [[e2|rs] w2] eqn:Hg; [|discriminate].
    intros [= <- <- <-].
    destruct (fetch_tree_heap _ _ _ Hf) as [Hh1 _].
    destruct (get_projects_heap _ _ _ _ _ _ Hg) as [Hh2 _].
    repeat split; [congruence|]. right. exists g, w1. auto.
Qed.

Lemma root_load_failure_witness :
  Five38Root._entries (Five38Root.mk None ∅) = ∅
  /\ Five38Root._search_string (Five38Root.mk None ∅)
     = Five38Root._search_string (Five38Root.mk None {[ "old" := 7%nat ]})
  /\ heap (add_requests (world_of elections_upstream) [repo_url])
     = heap (world_of elections_upstream)
  /\ (fetch_tree (world_of elections_upstream)
      = (inl (HTTPError repo_url),
         add_requests (world_of elections_upstream) [repo_url])
      \/ exists g w1,
           fetch_tree (world_of elections_upstream) = (inr g, w1)
           /\ get_projects
                (Five38Root._search_string
                   (Five38Root.mk None {[ "old" := 7%nat ]}))
                (Some g) true w1
              = (inl (HTTPError repo_url),
                 add_requests (world_of elections_upstream) [repo_url])).
Proof.
  apply (root_load_failure (Five38Root.mk None {[ "old" := 7%nat ]})).
  vm_compute. reflexivity.
Defined.

(** X13: after a load of the root catalog, every handle can be loaded
    without the network: the sub-catalog a key refers to holds the tree
    the root catalog fetched, its name normalizes to the key, and loading
    it makes no request and registers the data files of its project. *)
Theorem root_handles_load_offline (self self' : Five38Root.t) (w w' : World)
    (k : string) (ref : nat) :
  Five38Root._load self w = (inr tt, self', w') ->
  Five38Root._entries self' !! k = Some ref ->
  exists o g w1 wl,
    fetch_tree w = (inr g, w1)
    /\ heap w' !! ref = Some o
    /\ _tree o = Some (JTree g)
    /\ PyStr.replace (sc_name o) "-" "_" = k
    /\ Five38SubCatalog._load ref w' = (inr tt, wl)
    /\ requests wl = requests w'
    /\ heap wl !! ref = Some (with_entries o (loaded_entries ref o g)).
Proof.
  rewrite root_load_run.
  destruct (fetch_tree w) as [[e|g] w1] eqn:Hf; [discriminate|].
  destruct (get_projects (Five38Root._search_string self) (Some g) true w1)
    as [[e|rs] w2] eqn:Hg; [discriminate|].
  intros [= <- <-] Hk.
  cbn [Five38Root._entries Five38Root.set_entries] in Hk.
  apply handles_lookup_Some in Hk
    as [(pre & r & post & -> & Hkey & _ & ->)|[_ Hk]];
    [|rewrite lookup_empty in Hk; discriminate].
  assert (Href : heap (with_heap w2
                         (heap w2 ++ map (handle_of g) (pre ++ r :: post)))
                   !! (length (heap w2) + length pre)%nat
                 = Some (handle_of g r)).
  { cbn [heap with_heap]. rewrite map_app. cbn [map]. rewrite app_assoc.
    apply list_lookup_middle. rewrite length_app, length_map. reflexivity. }
  pose proof (lookup_lt_Some _ _ _ Href) as Hlt.
  exists (handle_of g r), g, w1. eexists.
  split; [reflexivity|]. split; [exact Href|]. split; [reflexivity|].
  split; [exact Hkey|].
  split; [apply (_load_run _ (handle_of g r) g _ Href eq_refl)|].
  split; [reflexivity|].
  cbn [heap with_heap] in Hlt |- *. apply list_lookup_insert_eq. exact Hlt.
Qed.

Lemma root_handles_load_offline_witness :
  exists o g w1 wl,
    fetch_tree (world_of elections_github) = (inr g, w1)
    /\ heap
         (with_heap
            (add_requests (world_of elections_github)
               [repo_url; branch_url "master"; tree_url "abc123";
                readme_url elections (blob "elections/README.md")])
            [handle_of elections
               (record_of elections (dir "elections") "# Elections")])
         !! 0%nat = Some o
    /\ _tree o = Some (JTree g)
    /\ PyStr.replace (sc_name o) "-" "_" = "elections"
    /\ Five38SubCatalog._load 0
         (with_heap
            (add_requests (world_of elections_github)
               [repo_url; branch_url "master"; tree_url "abc123";
                readme_url elections (blob "elections/README.md")])
            [handle_of elections
               (record_of elections (dir "elections") "# Elections")])
       = (inr tt, wl)
    /\ requests wl
       = requests
           (with_heap
              (add_requests (world_of elections_github)
                 [repo_url; branch_url "master"; tree_url "abc123";
                  readme_url elections (blob "elections/README.md")])
              [handle_of elections
                 (record_of elections (dir "elections") "# Elections")])
    /\ heap wl !! 0%nat = Some (with_entries o (loaded_entries 0 o g)).
Proof.
  apply (root_handles_load_offline
           (Five38Root.new Five38Root.default_query)
           (Five38Root.mk (Some "") {[ "elections" := 0%nat ]})
           (world_of elections_github)).
  - vm_compute. reflexivity.
  - vm_compute. reflexivity.
Defined.

(** The scenario end to end: the root catalog of the snapshot [elections],
    and the entries of the sub-catalog behind its one handle. *)
Example elections_end_to_end :
  forall wl,
    Five38SubCatalog._load 0
      (snd (Five38Root._load (Five38Root.new Five38Root.default_query)
              (world_of elections_github))) = (inr tt, wl) ->
    _entries <$> (heap wl !! 0%nat)
    = Some {[ "results.csv" :=
                LocalCatalogEntry.mk "results.csv" "data file for elections"
                  "csv" 0%nat
                  "https://raw.githubusercontent.com/fivethirtyeight/data/abc123/elections/results.csv" ]}.
Proof. intros wl H. vm_compute in H. injection H as <-. vm_compute. reflexivity. Qed.

(** X14: a root catalog built without a query, one searched with the empty
    string and one searched with no text load alike: the same requests,
    the same outcome, the same entries and the same sub-catalog objects,
    those of every project of the snapshot. *)
Theorem root_load_default_query (self : Five38Root.t) (w : World) :
  let all := Five38Root._load (Five38Root.search self None) w in
  let run := Five38Root._load (Five38Root.new Five38Root.default_query) w in
  let searched := Five38Root._load (Five38Root.search self (Some "")) w in
  run = searched
  /\ fst (fst run) = fst (fst all)
  /\ Five38Root._entries (snd (fst run)) = Five38Root._entries (snd (fst all))
  /\ snd run = snd all.
Proof.
  cbv zeta. split; [reflexivity|].
  unfold Five38Root.search, Five38Root.new, Five38Root.default_query.
  rewrite !root_load_run.
  destruct (fetch_tree w) as [[e|g] w1]; [repeat split|].
  cbn [Five38Root._search_string].
  unfold get_projects. rewrite !bind_ret_run, project_list_empty_keyword.
  destruct (collect_records g (project_list None g) [] w1) as [[e|rs] w2];
    repeat split.
Qed.

(** ** The flattening walk, continued *)

Section WalkMore.
Import Five38Catalog.
Variable cats : Catalogs.

(** Induction along the calls of [walk]. *)
Lemma walk_from_induction
    (P : Z -> nat -> WalkState -> list string -> Outcome -> Prop) :
  (forall depth self st prefix,
      (1 < depth -> forall sub st' p,
          P (depth - 1) sub st' p (walk_from cats (depth - 1) sub st' p)) ->
      P depth self st prefix
        (walk_body (walk_from cats) cats depth self st prefix)) ->
  forall depth self st prefix,
    P depth self st prefix (walk_from cats depth self st prefix).
Proof.
  intros Hstep depth. remember (Z.to_nat depth) as n eqn:En.
  revert depth En. induction n as [|n IH]; intros depth En self st prefix;
    rewrite walk_from_unfold; apply Hstep; intros Hd.
  - lia.
  - intros sub st' p. apply IH. lia.
Qed.

Lemma walk_from_reloaded (depth : Z) (self : nat) (st : WalkState)
    (prefix : list string) :
  reload (cats self) = None ->
  walk_from cats depth self st prefix
  = (fold_left (visit (walk_from cats) depth prefix) (entries (cats self)) st,
     None).
Proof.
  intros H. rewrite walk_from_unfold. unfold walk_body. rewrite H. reflexivity.
Qed.

(** *** Without descent *)

Lemma visit_shallow (rec_walk : Z -> nat -> WalkState -> list string -> Outcome)
    (depth : Z) (prefix : list string) (st : WalkState)
    (entry : string * Item) :
  depth <= 1 ->
  visit rec_walk depth prefix st entry
  = setitem (dotted_name prefix entry) (snd entry) st.
Proof.
  intros H. unfold visit, dotted_name.
  replace (1 <? depth) with false by (symmetry; apply Z.ltb_ge; exact H).
  rewrite andb_false_r. reflexivity.
Qed.

Lemma loop_shallow (depth : Z) (prefix : list string)
    (l : list (string * Item)) :
  depth <= 1 ->
  forall st,
    fold_left (visit (walk_from cats) depth prefix) l st
    = {| out := put_all (dotted_name prefix) snd l (out st);
         stdout := stdout st |}.
Proof.
  intros H. induction l as [|e l IH]; intros st; [destruct st; reflexivity|].
  cbn [fold_left]. rewrite IH, visit_shallow by exact H. reflexivity.
Qed.

(** X15: with [depth] 1 or below (0 and negative depths too), [walk]
    opens no entry and prints nothing: the mapping it returns is [sofar]
    with every entry of the catalog put under its dotted name, in the
    order of the entries, catalogs being recorded as they are. *)
Theorem walk_shallow (self : nat) (sofar : option (gmap string Item))
    (prefix : option (list string)) (depth : Z) (printed : list exn) :
  depth <= 1 -> reload (cats self) = None ->
  walk cats self sofar prefix depth printed
  = ({| out := put_all (dotted_name (default [] prefix)) snd
                 (entries (cats self)) (default ∅ sofar);
        stdout := printed |},
     None).
Proof.
  intros Hd Hre. unfold walk. rewrite walk_from_reloaded by exact Hre.
  rewrite loop_shallow by exact Hd. reflexivity.
Qed.

(** *** Every entry within the depth is in the mapping *)

Lemma setitem_keeps (n : string) (item : Item) (st : WalkState) (k : string) :
  is_Some (out st !! k) -> is_Some (out (setitem n item st) !! k).
Proof.
  intros H. cbn [setitem out]. destruct (decide (n = k)) as [->|Hn].
  - rewrite lookup_insert_eq. eauto.
  - rewrite lookup_insert_ne by exact Hn. exact H.
Qed.

Lemma loop_keeps (depth : Z) (prefix : list string) (l : list (string * Item))
    (st : WalkState) (k : string) :
  is_Some (out st !! k) ->
  is_Some (out (fold_left (visit (walk_from cats) depth prefix) l st) !! k).
Proof. apply (wrote_keeps cats l prefix depth). apply loop_wrote_all. Qed.

Section Covering.
Variable depth : Z.
Hypothesis below :
  1 < depth -> forall sub st p,
    reload (cats sub) = None ->
    covers cats (entries (cats sub)) p (depth - 1)
      (fst (walk_from cats (depth - 1) sub st p)).

Lemma visit_covers_below (prefix : list string) (st : WalkState)
    (name : string) (item0 : Item) (sub : nat) (path : list string)
    (item : Item) :
  container item0 = "catalog" -> call item0 = inr sub ->
  reload (cats sub) = None ->
  reaches cats (entries (cats sub)) path item ->
  Z.of_nat (length (name :: path)) <= Z.max 1 depth ->
  is_Some (out (visit (walk_from cats) depth prefix st (name, item0))
             !! PyStr.join "." (prefix ++ name :: path)).
Proof.
  intros Hc Hcall Hre Hr Hlen.
  assert (Hpos : (1 <= length path)%nat).
  { destruct (reaches_head cats _ _ _ Hr) as (n & rest & -> & _). simpl. lia. }
  cbn [length] in Hlen.
  assert (Hd : 1 < depth) by lia.
  unfold visit. cbn [fst snd]. apply setitem_keeps.
  rewrite Hc, String.eqb_refl.
  replace (1 <? depth) with true by (symmetry; apply Z.ltb_lt; exact Hd).
  cbn [andb]. rewrite Hcall.
  pose proof (below Hd sub st (prefix ++ [name]) Hre path item Hr) as Hcov.
  rewrite (walk_from_reloaded _ _ _ _ Hre) in Hcov |- *. cbn [fst] in Hcov.
  rewrite <- app_assoc in Hcov. apply Hcov. lia.
Qed.

Lemma loop_covers (prefix : list string) (l : list (string * Item)) :
  forall st,
    covers cats l prefix depth
      (fold_left (visit (walk_from cats) depth prefix) l st).
Proof.
  induction l as [|[n0 i0] l IH]; intros st path item Hr Hlen.
  { destruct (reaches_head cats _ _ _ Hr) as (n & rest & _ & [] & _). }
  cbn [fold_left].
  inversion Hr as [es name item' Hin|es name item0 sub path' item' Hin Hc Hcall
                                     Hre Hr']; subst.
  - destruct Hin as [[= -> ->]|Hin].
    + apply loop_keeps. rewrite visit_sets. eauto.
    + exact (IH _ _ _ (reach_entry cats l _ _ Hin) Hlen).
  - destruct Hin as [[= -> ->]|Hin].
    + apply loop_keeps. eapply visit_covers_below; eauto.
    + exact (IH _ _ _ (reach_nested cats l _ _ _ _ _ Hin Hc Hcall Hre Hr')
               Hlen).
Qed.
End Covering.

Lemma walk_from_covers (depth : Z) (self : nat) (st : WalkState)
    (prefix : list string) :
  reload (cats self) = None ->
  covers cats (entries (cats self)) prefix depth
    (fst (walk_from cats depth self st prefix)).
Proof.
  apply (walk_from_induction
           (fun depth self st prefix res =>
              reload (cats self) = None ->
              covers cats (entries (cats self)) prefix depth (fst res))).
  clear. intros depth self st prefix Hbelow Hre.
  unfold walk_body. rewrite Hre. cbn [fst]. apply loop_covers. exact Hbelow.
Qed.

(** X16: the keys of the mapping [walk] returns are those of [sofar] and
    the dotted names of the entries reached along at most [depth] names
    (one name when [depth] is below 1), each catalog on the way opening
    and reloading; nothing within the depth is left out and no key of
    [sofar] is lost. *)
Theorem walk_keys (self : nat) (sofar : option (gmap string Item))
    (prefix : option (list string)) (depth : Z) (printed : list exn)
    (k : string) :
  reload (cats self) = None ->
  is_Some (out (fst (walk cats self sofar prefix depth printed)) !! k) <->
  is_Some (default ∅ sofar !! k)
  \/ exists path item,
       reaches cats (entries (cats self)) path item
       /\ Z.of_nat (length path) <= Z.max 1 depth
       /\ k = PyStr.join "." (default [] prefix ++ path).
Proof.
  intros Hre. unfold walk.
  set (st := {| out := default ∅ sofar; stdout := printed |}).
  pose proof (walk_from_spec cats depth self st (default [] prefix)) as Hspec.
  unfold walk_spec in Hspec. rewrite Hre in Hspec. destruct Hspec as [_ Hw].
  split.
  - intros Hk. destruct (Hw k) as [E|(path & item & -> & Hb & Hr & _)].
    + left. change (is_Some (out st !! k)). rewrite <- E. exact Hk.
    + right. exists path, item. repeat split; [exact Hr | lia].
  - intros [Hk|(path & item & Hr & Hb & ->)].
    + eapply wrote_keeps; [exact Hw | exact Hk].
    + apply (walk_from_covers depth self st (default [] prefix) Hre path item);
        assumption.
Qed.
(** *** What is printed *)

Section Printing.
Variable depth : Z.
Hypothesis below :
  1 < depth -> forall sub st p,
    exists more,
      stdout (fst (walk_from cats (depth - 1) sub st p)) = stdout st ++ more.

Lemma visit_stdout (prefix : list string) (st : WalkState)
    (entry : string * Item) :
  exists more,
    stdout (visit (walk_from cats) depth prefix st entry) = stdout st ++ more.
Proof.
  unfold visit. cbn [setitem stdout].
  destruct (String.eqb (container (snd entry)) "catalog" && (1 <? depth)) eqn:E;
    [|exists []; rewrite app_nil_r; reflexivity].
  apply andb_true_iff in E as [_ Ed]. apply Z.ltb_lt in Ed.
  destruct (call (snd entry)) as [e|sub]; [exists [e]; reflexivity|].
  destruct (below Ed sub st (prefix ++ [fst entry])) as [more Hmore].
  destruct (walk_from cats (depth - 1) sub st (prefix ++ [fst entry]))
    as [st' [e|]]; cbn [fst] in Hmore.
  - exists (more ++ [e]). cbn [print stdout]. rewrite Hmore, app_assoc.
    reflexivity.
  - exists more. exact Hmore.
Qed.

Lemma loop_stdout (prefix : list string) (l : list (string * Item)) :
  forall st,
    exists more,
      stdout (fold_left (visit (walk_from cats) depth prefix) l st)
      = stdout st ++ more.
Proof.
  induction l as [|e l IH]; intros st; [exists []; rewrite app_nil_r; reflexivity|].
  cbn [fold_left]. destruct (visit_stdout prefix st e) as [m1 H1].
  destruct (IH (visit (walk_from cats) depth prefix st e)) as [m2 H2].
  exists (m1 ++ m2). rewrite H2, H1, app_assoc. reflexivity.
Qed.
End Printing.

(** Whatever was printed before a call of [walk] is still there after. *)
Lemma walk_from_stdout (depth : Z) (self : nat) (st : WalkState)
    (prefix : list string) :
  exists more,
    stdout (fst (walk_from cats depth self st prefix)) = stdout st ++ more.
Proof.
  apply (walk_from_induction
           (fun depth self st prefix res =>
              exists more, stdout (fst res) = stdout st ++ more)).
  clear. intros depth self st prefix Hbelow. unfold walk_body.
  destruct (reload (cats self)); [exists []; rewrite app_nil_r; reflexivity|].
  cbn [fst]. apply loop_stdout. exact Hbelow.
Qed.

Lemma loop_stdout_all (depth : Z) (prefix : list string)
    (l : list (string * Item)) (st : WalkState) :
  exists more,
    stdout (fold_left (visit (walk_from cats) depth prefix) l st)
    = stdout st ++ more.
Proof. apply loop_stdout. intros _ sub st0 p. apply walk_from_stdout. Qed.

(** An entry that cannot be opened, or whose catalog cannot be reloaded. *)
Lemma visit_prints (depth : Z) (prefix : list string) (st : WalkState)
    (name : string) (item : Item) (e : exn) :
  1 < depth -> container item = "catalog" ->
  (call item = inl e
   \/ exists sub, call item = inr sub /\ reload (cats sub) = Some e) ->
  stdout (visit (walk_from cats) depth prefix st (name, item))
  = stdout st ++ [e].
Proof.
  intros Hd Hc Hfail. unfold visit. cbn [fst snd setitem stdout].
  rewrite Hc, String.eqb_refl.
  replace (1 <? depth) with true by (symmetry; apply Z.ltb_lt; exact Hd).
  cbn [andb]. destruct Hfail as [->|(sub & -> & Hre)]; [reflexivity|].
  rewrite walk_from_unfold. unfold walk_body. rewrite Hre. reflexivity.
Qed.

Lemma loop_prints (depth : Z) (prefix : list string)
    (l : list (string * Item)) (name : string) (item : Item) (e : exn) :
  1 < depth -> In (name, item) l -> container item = "catalog" ->
  (call item = inl e
   \/ exists sub, call item = inr sub /\ reload (cats sub) = Some e) ->
  forall st,
    In e (stdout (fold_left (visit (walk_from cats) depth prefix) l st)).
Proof.
  intros Hd Hin Hc Hfail. induction l as [|[n0 i0] l IH]; intros st;
    [destruct Hin|].
  cbn [fold_left]. destruct Hin as [[= -> ->]|Hin]; [|apply IH; exact Hin].
  destruct (loop_stdout_all depth prefix l
              (visit (walk_from cats) depth prefix st (name, item)))
    as [more ->].
  rewrite (visit_prints depth prefix st name item e Hd Hc Hfail).
  apply in_or_app. left. apply in_or_app. right. left. reflexivity.
Qed.

(** X17: [walk] logs what it suppresses: with [depth] above 1, the
    exception of every entry of the walked catalog that is a catalog and
    cannot be opened, or whose catalog fails to reload, is printed; and
    what was printed before the call comes first in the output. *)
Theorem walk_prints_failures (self : nat) (sofar : option (gmap string Item))
    (prefix : option (list string)) (depth : Z) (printed : list exn) :
  reload (cats self) = None ->
  (exists more,
      stdout (fst (walk cats self sofar prefix depth printed))
      = printed ++ more)
  /\ (1 < depth ->
      forall name item e,
        In (name, item) (entries (cats self)) ->
        container item = "catalog" ->
        (call item = inl e
         \/ exists sub, call item = inr sub /\ reload (cats sub) = Some e) ->
        In e (stdout (fst (walk cats self sofar prefix depth printed)))).
Proof.
  intros Hre. unfold walk. split.
  - apply (walk_from_stdout depth self
             {| out := default ∅ sofar; stdout := printed |}).
  - intros Hd name item e Hin Hc Hfail.
    rewrite (walk_from_reloaded _ _ _ _ Hre). cbn [fst].
    apply (loop_prints depth _ _ name item e Hd Hin Hc Hfail).
Qed.
End WalkMore.

Lemma walk_shallow_witness :
  Five38Catalog.walk five_levels 0 None (Some ["root"]) 0 []
  = ({| Five38Catalog.out :=
          put_all (dotted_name (default [] (Some ["root"]))) snd
            (Five38Catalog.entries (five_levels 0%nat)) (default ∅ None);
        Five38Catalog.stdout := [] |},
     None).
Proof.
  apply (walk_shallow five_levels 0 None (Some ["root"]) 0 []);
    [lia | reflexivity].
Defined.

Lemma walk_keys_witness :
  is_Some (Five38Catalog.out
             (fst (Five38Catalog.walk cyclic 0 None None 3 []))
             !! "again.again.data") <->
  is_Some (default (∅ : gmap string Five38Catalog.Item) None
             !! "again.again.data")
  \/ exists path item,
       reaches cyclic (Five38Catalog.entries (cyclic 0%nat)) path item
       /\ Z.of_nat (length path) <= Z.max 1 3
       /\ "again.again.data" = PyStr.join "." (default [] None ++ path).
Proof.
  apply (walk_keys cyclic 0 None None 3 [] "again.again.data"). reflexivity.
Defined.

Lemma walk_prints_failures_witness :
  (exists more,
      Five38Catalog.stdout
        (fst (Five38Catalog.walk flaky 0 None None 3 [HTTPError "before"]))
      = [HTTPError "before"] ++ more)
  /\ (1 < 3 ->
      forall name item e,
        In (name, item) (Five38Catalog.entries (flaky 0%nat)) ->
        Five38Catalog.container item = "catalog" ->
        (Five38Catalog.call item = inl e
         \/ exists sub, Five38Catalog.call item = inr sub
                        /\ Five38Catalog.reload (flaky sub) = Some e) ->
        In e (Five38Catalog.stdout
                (fst (Five38Catalog.walk flaky 0 None None 3
                        [HTTPError "before"])))).
Proof.
  apply (walk_prints_failures flaky 0 None None 3 [HTTPError "before"]).
  reflexivity.
Defined.

(** ** A keyword against the full listing *)

Section KeywordFilter.
Variable up : string -> exn + Response.
Variable g : GitTree.
Variable keep : string -> bool.

Lemma collect_plan_filter (ds : list Node.t) :
  forall recs rs,
    fst (collect_plan up g ds recs) = inr rs ->
    exists rs',
      rs = recs ++ rs'
      /\ forall recs2,
           fst (collect_plan up g
                  (List.filter (fun x => keep (Node.path x)) ds) recs2)
           = inr (recs2 ++ List.filter (fun r => keep (Name r)) rs').
Proof.
  induction ds as [|d ds IH]; intros recs rs.
  - cbn. intros [= <-]. exists []. split; [symmetry; apply app_nil_r|].
    intros recs2. cbn. rewrite app_nil_r. reflexivity.
  - cbn [collect_plan].
    destruct (readme_candidates g d) as [|r0 others] eqn:Hc; [discriminate|].
    destruct (up (readme_url g r0)) as [e|response] eqn:Hu; [discriminate|].
    destruct (status_error response) eqn:Hs; [discriminate|].
    cbv zeta. cbn [fst]. intros Hrest.
    destruct (IH _ _ Hrest) as (rs' & -> & Hfilter).
    exists (record_of g d (text response) :: rs').
    split; [rewrite <- app_assoc; reflexivity|].
    intros recs2. cbn [List.filter]. cbn [record_of Name].
    destruct (keep (Node.path d)).
    + cbn [collect_plan]. rewrite Hc, Hu, Hs. cbv zeta. cbn [fst].
      rewrite Hfilter, <- app_assoc. reflexivity.
    + apply Hfilter.
Qed.
End KeywordFilter.

(** X18: where the listing without keyword returns, the listing with a
    keyword returns too, on the same upstream: its frame is the frame of
    the full listing restricted, in order, to the records whose name
    holds the keyword. *)
Theorem get_projects_keyword_filters_listing (g : GitTree) (k : string)
    (render0 render : bool) (w0 w0' w : World) (rs0 : DataFrame) :
  get_projects None (Some g) render0 w0 = (inr rs0, w0') ->
  upstream w = upstream w0 ->
  exists w',
    get_projects (Some k) (Some g) render w
    = (inr (List.filter (fun r => 0 <=? PyStr.find (Name r) k) rs0), w').
Proof.
  intros Hfull Hup. rewrite get_projects_run in Hfull |- *.
  injection Hfull as Hfst _. rewrite <- Hup in Hfst.
  destruct (collect_plan_filter (upstream w) g
              (fun n => 0 <=? PyStr.find n k) _ _ _ Hfst)
    as (rs' & -> & Hfilter).
  eexists. cbn [project_list]. f_equal. rewrite Hfilter. reflexivity.
Qed.

Lemma get_projects_keyword_filters_listing_witness :
  exists w',
    get_projects (Some "elo") (Some nba) false (world_of nba_upstream)
    = (inr (List.filter (fun r => 0 <=? PyStr.find (Name r) "elo")
              [{| Name := "nba-elo"; Description := "# NBA Elo";
                  URL := "https://www.github.com/fivethirtyeight/data/tree/abc123/nba-elo" |};
               {| Name := "nba"; Description := "# NBA Elo";
                  URL := "https://www.github.com/fivethirtyeight/data/tree/abc123/nba" |}]),
       w').
Proof.
  apply (get_projects_keyword_filters_listing nba "elo" true false
           (world_of nba_upstream)
           (add_requests (world_of nba_upstream)
              [readme_url nba (blob "nba-elo/README.md");
               readme_url nba (blob "nba-elo/README.md")])
           (world_of nba_upstream)).
  - vm_compute. reflexivity.
  - reflexivity.
Defined.
